(** * Icon padding adjuster: a shallow embedding of [scripts/fix-icon-padding.py]

    The script is a straight-line pipeline over Pillow images:
    open, convert to RGBA, bounding box, crop, resize, paste on a fresh
    transparent canvas, save as PNG.  Images are modelled as a mode, a size
    and a pixel buffer; the file system and the console are threaded
    explicitly through a small state-and-exception monad. *)

From Stdlib Require Import ZArith Lia List Bool Uint63.
From Stdlib Require Import Floats.PrimFloat Floats.FloatOps Floats.SpecFloat.
From stdpp Require Import gmap strings.

Local Open Scope Z_scope.

(** ** Pixels, modes and images *)

(** One pixel of Pillow's 32-bit storage: four 8-bit bands.  Single-band
    modes ("1", "L", "P") keep their value in the first band, "LA" keeps
    luminance in the first and alpha in the fourth. *)
Record pixel : Type := Pixel { red : Z; green : Z; blue : Z; alpha : Z }.

(** The image modes a PNG file decodes to (8 bits per band). *)
Inductive mode : Type := Mode_1 | Mode_L | Mode_LA | Mode_P | Mode_RGB | Mode_RGBA.

Definition mode_eqb (a b : mode) : bool :=
  match a, b with
  | Mode_1, Mode_1 | Mode_L, Mode_L | Mode_LA, Mode_LA
  | Mode_P, Mode_P | Mode_RGB, Mode_RGB | Mode_RGBA, Mode_RGBA => true
  | _, _ => false
  end.

(** [info["transparency"]]: a grey level or palette index, an RGB colour,
    or one alpha byte per palette entry. *)
Inductive transparency : Type :=
  | TrnsValue (v : Z)
  | TrnsColor (r g b : Z)
  | TrnsBytes (alphas : list Z).

Record Image : Type := mkImage {
  im_mode : mode;
  im_width : Z;
  im_height : Z;
  im_data : Z -> Z -> pixel;          (* buffer, addressed as [x] then [y] *)
  im_palette : Z -> pixel;            (* used by mode "P" only *)
  im_transparency : option transparency
}.

(** A 4-tuple box (left, upper, right, lower); right and lower are exclusive. *)
Definition box : Type := (Z * Z * Z * Z)%type.

Definition in_bounds (im : Image) (x y : Z) : bool :=
  (0 <=? x) && (x <? im_width im) && (0 <=? y) && (y <? im_height im).

Definition no_palette : Z -> pixel := fun _ => Pixel 0 0 0 0.

(** [range(n)] *)
Definition zrange (n : Z) : list Z := map Z.of_nat (seq 0 (Z.to_nat n)).

(** ** [Image.convert('RGBA')] *)

Definition palette_alpha (t : option transparency) (i : Z) : Z :=
  match t with
  | Some (TrnsValue v) => if i =? v then 0 else 255
  | Some (TrnsBytes l) => nth (Z.to_nat i) l 255
  | _ => 255
  end.

Definition grey_alpha (t : option transparency) (l : Z) : Z :=
  match t with
  | Some (TrnsValue v) => if l =? v then 0 else 255
  | _ => 255
  end.

Definition rgb_alpha (t : option transparency) (p : pixel) : Z :=
  match t with
  | Some (TrnsColor r g b) =>
      if (red p =? r) && (green p =? g) && (blue p =? b) then 0 else 255
  | _ => 255
  end.

Definition convert_pixel (im : Image) (p : pixel) : pixel :=
  match im_mode im with
  | Mode_RGBA => p
  | Mode_RGB => Pixel (red p) (green p) (blue p) (rgb_alpha (im_transparency im) p)
  | Mode_LA => Pixel (red p) (red p) (red p) (alpha p)
  | Mode_L | Mode_1 =>
      Pixel (red p) (red p) (red p) (grey_alpha (im_transparency im) (red p))
  | Mode_P =>
      let c := im_palette im (red p) in
      Pixel (red c) (green c) (blue c) (palette_alpha (im_transparency im) (red p))
  end.

Definition convert_RGBA (im : Image) : Image :=
  {| im_mode := Mode_RGBA;
     im_width := im_width im;
     im_height := im_height im;
     im_data := fun x y => convert_pixel im (im_data im x y);
     im_palette := no_palette;
     im_transparency := None |}.

(** Whether a mode, together with the image's [info], can express
    transparency at all. *)
Definition has_transparency_data (im : Image) : bool :=
  match im_mode im with
  | Mode_RGBA | Mode_LA => true
  | _ => match im_transparency im with Some _ => true | None => false end
  end.

(** ** [Image.getbbox()] *)

(** The test [pixel & mask] of Pillow's bounding-box scan: for modes with
    an alpha band only that band counts. *)
Definition nonzero (m : mode) (p : pixel) : bool :=
  match m with
  | Mode_RGBA | Mode_LA => negb (alpha p =? 0)
  | Mode_RGB => negb ((red p =? 0) && (green p =? 0) && (blue p =? 0))
  | Mode_1 | Mode_L | Mode_P => negb (red p =? 0)
  end.

Definition has_content_at (im : Image) (x y : Z) : bool :=
  nonzero (im_mode im) (im_data im x y).

(** Inner loop over one row; state is (has_data, bbox[0], bbox[2]). *)
Definition scan_pixel (im : Image) (y : Z) (st : bool * Z * Z) (x : Z)
  : bool * Z * Z :=
  let '(has, l, r) := st in
  if has_content_at im x y
  then (true, (if x <? l then x else l), (if x >=? r then x + 1 else r))
  else st.

(** Outer loop over the rows; state is bbox[0..3]. *)
Definition scan_row (im : Image) (st : box) (y : Z) : box :=
  let '(l, t, r, b) := st in
  let '(has, l', r') := fold_left (scan_pixel im y) (zrange (im_width im)) (false, l, r) in
  if has then (l', (if t <? 0 then y else t), r', y + 1) else (l', t, r', b).

Definition scan_rows (im : Image) (n : Z) : box :=
  fold_left (scan_row im) (zrange n) (im_width im, -1, 0, 0).

Definition getbbox (im : Image) : option box :=
  let '(l, t, r, b) := scan_rows im (im_height im) in
  if t <? 0 then None else Some (l, t, r, b).

(** ** Exceptions and results *)

Inductive exn : Type :=
  | FileNotFoundError | PermissionError | IsADirectoryError
  | UnidentifiedImageError | OSError | ValueError | OverflowError.

Inductive outcome (A : Type) : Type :=
  | Ret (a : A)
  | Raise (e : exn).
Arguments Ret {A} a.
Arguments Raise {A} e.

(** ** [Image.crop], [Image.new], [Image.paste] *)

(** The image a crop returns: pixels of the box that fall outside the
    source are zero-filled. *)
Definition crop_region (im : Image) (bx : box) : Image :=
  let '(l, t, r, b) := bx in
  {| im_mode := im_mode im;
     im_width := r - l;
     im_height := b - t;
     im_data := fun x y =>
       if in_bounds im (x + l) (y + t) then im_data im (x + l) (y + t)
       else Pixel 0 0 0 0;
     im_palette := im_palette im;
     im_transparency := im_transparency im |}.

(** [im.crop(box)]: a box whose right (lower) edge precedes its left
    (upper) edge is rejected. *)
Definition crop (im : Image) (bx : box) : outcome Image :=
  let '(l, t, r, b) := bx in
  if r <? l then Raise ValueError
  else if b <? t then Raise ValueError
  else Ret (crop_region im bx).

Definition Image_new (m : mode) (size : Z * Z) (color : pixel) : Image :=
  {| im_mode := m;
     im_width := fst size;
     im_height := snd size;
     im_data := fun _ _ => color;
     im_palette := no_palette;
     im_transparency := None |}.

(** The fixed-point division by 255 and the blend of Pillow's paste. *)
Definition DIV255 (a : Z) : Z :=
  let tmp := a + 128 in Z.shiftr (Z.shiftr tmp 8 + tmp) 8.

Definition BLEND (mask in1 in2 : Z) : Z :=
  DIV255 (in1 * (255 - mask) + in2 * mask).

Definition blend_pixel (mask : Z) (dst src : pixel) : pixel :=
  Pixel (BLEND mask (red dst) (red src)) (BLEND mask (green dst) (green src))
        (BLEND mask (blue dst) (blue src)) (BLEND mask (alpha dst) (alpha src)).

(** The matte a mask image yields: its alpha band if it has one, else its
    single band; other modes are not masks. *)
Definition mask_value (mask : Image) (x y : Z) : option Z :=
  match im_mode mask with
  | Mode_RGBA | Mode_LA => Some (alpha (im_data mask x y))
  | Mode_L => Some (red (im_data mask x y))
  | Mode_1 => Some (if red (im_data mask x y) =? 0 then 0 else 255)
  | Mode_P | Mode_RGB => None
  end.

Definition is_mask_mode (m : mode) : bool :=
  match m with
  | Mode_RGBA | Mode_LA | Mode_L | Mode_1 => true
  | Mode_P | Mode_RGB => false
  end.

(** The region a paste at [pos] of a [w]x[h] source addresses. *)
Definition paste_box (pos : Z * Z) (w h : Z) : box :=
  (fst pos, snd pos, fst pos + w, snd pos + h).

Definition in_box (bx : box) (x y : Z) : bool :=
  let '(l, t, r, b) := bx in
  (l <=? x) && (x <? r) && (t <=? y) && (y <? b).

(** The destination after a masked paste: inside the pasted region
    (clipped to the destination) each band is blended by the matte. *)
Definition paste_region (dst src : Image) (pos : Z * Z) (mask : Image) : Image :=
  let bx := paste_box pos (im_width src) (im_height src) in
  {| im_mode := im_mode dst;
     im_width := im_width dst;
     im_height := im_height dst;
     im_data := fun x y =>
       if in_box bx x y && in_bounds dst x y then
         match mask_value mask (x - fst pos) (y - snd pos) with
         | Some m => blend_pixel m (im_data dst x y)
                                  (im_data src (x - fst pos) (y - snd pos))
         | None => im_data dst x y
         end
       else im_data dst x y;
     im_palette := im_palette dst;
     im_transparency := im_transparency dst |}.

(** [dst.paste(src, pos, mask)] onto an RGBA destination (the only one the
    script has): a source of another mode is converted first, the mask
    must be a mask mode of the source's size. *)
Definition paste (dst src : Image) (pos : Z * Z) (mask : Image) : outcome Image :=
  let src := if mode_eqb (im_mode src) (im_mode dst) then src else convert_RGBA src in
  if negb (is_mask_mode (im_mode mask)) then Raise ValueError
  else if negb ((im_width mask =? im_width src) && (im_height mask =? im_height src))
  then Raise ValueError
  else Ret (paste_region dst src pos mask).

(** ** Python numbers: [int * float] and [int(float)] *)

(** [float(z)], for integers below 2^63 in magnitude. *)
Definition float_of_int (z : Z) : float :=
  if z <? 0 then PrimFloat.opp (PrimFloat.of_uint63 (Uint63.of_Z (- z)))
  else PrimFloat.of_uint63 (Uint63.of_Z z).

(** [int(f)]: truncation toward zero; infinities and NaN raise. *)
Definition int_of_float (f : float) : outcome Z :=
  match Prim2SF f with
  | S754_zero _ => Ret 0
  | S754_infinity _ => Raise OverflowError
  | S754_nan => Raise ValueError
  | S754_finite s m e =>
      let mag := match e with
                 | Z0 => Zpos m
                 | Zpos p => Zpos m * 2 ^ Zpos p
                 | Zneg p => Zpos m / 2 ^ Zpos p
                 end in
      Ret (if s then - mag else mag)
  end.

(** The literal [0.90]: the binary64 value nearest to nine tenths. *)
Definition lit_0_90 : float := 0x1.ccccccccccccdp-1%float.

Definition target_size : Z := 1024.

(** [int(target_size * 0.90)] *)
Definition content_size : outcome Z :=
  int_of_float (PrimFloat.mul (float_of_int target_size) lit_0_90).

(** [(target_size - content_size) // 2] *)
Definition margin (csize : Z) : Z := (target_size - csize) / 2.

(** ** The world: files, permissions, console *)

Inductive format : Type := PNG | JPEG | BMP.

(** Where a stream that does not decode ends: inside its header (the
    empty stream included), or inside its pixel data. *)
Inductive stream_cut : Type := HeaderCut | DataCut.

Inductive file : Type :=
  | ImageFile (fmt : format) (im : Image)
      (* a stream that decodes to [im]: complete, or lacking only its end marker *)
  | PartialFile (cut : stream_cut)          (* an unfinished stream *)
  | DataFile (content : string).            (* not an image *)

(** Why a path cannot be opened for writing, and the exception [open]
    raises for it. *)
Inductive denial : Type := NoPermission | NoDirectory | IsDirectory.

Definition denial_exn (d : denial) : exn :=
  match d with
  | NoPermission => PermissionError
  | NoDirectory => FileNotFoundError
  | IsDirectory => IsADirectoryError
  end.

(** Where the device fails under a writer, and the stream it leaves of an
    image that was being written. *)
Inductive fault_point : Type := AtFirstWrite | InPixelData | BeforeEndMarker.

Definition fault_leftover (at_ : fault_point) (fmt : format) (im : Image) : file :=
  match at_ with
  | AtFirstWrite => PartialFile HeaderCut
  | InPixelData => PartialFile DataCut
  | BeforeEndMarker => ImageFile fmt im
  end.

Inductive message : Type :=
  | MsgIconFixed (path : string)
  | MsgBBox (bx : box)
  | MsgNewSize (size mrg : Z)
  | MsgNoContent
  | MsgError (e : exn).

(** [fs] maps the paths of the regular files to their content.  A path
    that names a directory, or lies under a missing one, appears only as
    a path that cannot be opened for writing; as an input path it is read
    as a missing file. *)
Record World : Type := mkWorld {
  fs : gmap string file;
  unreadable : gset string;    (* paths that cannot be opened for reading *)
  unwritable : gset string;    (* paths that cannot be opened for writing *)
  write_denial : string -> denial;   (* why, for the paths of [unwritable] *)
  write_fault : bool;          (* the device fails while data is written *)
  fault_at : fault_point;      (* where, when it does *)
  stdout : list message
}.

Definition set_fs (f : gmap string file) (w : World) : World :=
  {| fs := f; unreadable := unreadable w; unwritable := unwritable w;
     write_denial := write_denial w;
     write_fault := write_fault w; fault_at := fault_at w; stdout := stdout w |}.

Definition IO (A : Type) : Type := World -> World * outcome A.

Definition ret {A} (a : A) : IO A := fun w => (w, Ret a).

Definition bind {A B} (m : IO A) (k : A -> IO B) : IO B :=
  fun w => match m w with
           | (w', Ret a) => k a w'
           | (w', Raise e) => (w', Raise e)
           end.

Definition lift {A} (o : outcome A) : IO A := fun w => (w, o).

Declare Scope io_scope.
Delimit Scope io_scope with io.
Notation "'let!' x ':=' m 'in' k" := (bind m (fun x => k))
  (at level 10, x name, m at level 100, k at level 200) : io_scope.
Notation "'do!' m 'in' k" := (bind m (fun _ => k))
  (at level 10, m at level 100, k at level 200) : io_scope.

Definition print (m : message) : IO unit :=
  fun w => ({| fs := fs w; unreadable := unreadable w; unwritable := unwritable w;
               write_denial := write_denial w;
               write_fault := write_fault w; fault_at := fault_at w;
               stdout := stdout w ++ [m] |}, Ret tt).

(** [Image.open(path)] followed by the decoding of the pixel data (which
    Pillow defers to the first access; both precede any write).  A stream
    cut in its header is not identified as an image; one cut in its pixel
    data is identified and then fails to load. *)
Definition Image_open (path : string) : IO Image :=
  fun w => match fs w !! path with
           | None => (w, Raise FileNotFoundError)
           | Some f =>
               if decide (path ∈ unreadable w) then (w, Raise PermissionError)
               else match f with
                    | ImageFile _ im => (w, Ret im)
                    | PartialFile HeaderCut => (w, Raise UnidentifiedImageError)
                    | PartialFile DataCut => (w, Raise OSError)
                    | DataFile _ => (w, Raise UnidentifiedImageError)
                    end
           end.

(** [im.save(path, fmt)]: the file is opened with "w+b" (created or
    truncated), then the encoder writes into it.  A path that cannot be
    opened raises the error of [open] and nothing changes.  If the device
    fails under the encoder, the exception leaves the stream written so
    far at the path, whether the file existed before or not. *)
Definition save (im : Image) (path : string) (fmt : format) : IO unit :=
  fun w =>
    if decide (path ∈ unwritable w) then (w, Raise (denial_exn (write_denial w path)))
    else if write_fault w then
      (set_fs (<[path := fault_leftover (fault_at w) fmt im]> (fs w)) w, Raise OSError)
    else (set_fs (<[path := ImageFile fmt im]> (fs w)) w, Ret tt).

(** ** The script *)

Inductive Resampling : Type :=
  | NEAREST | BOX | BILINEAR | HAMMING | BICUBIC | LANCZOS.

(** The resampling kernels of the imaging library: the pixel buffer of
    the [w]x[h] image that a filter computes from a source.  Their
    arithmetic is floating point and stays abstract. *)
Definition kernels : Type := Resampling -> Image -> Z -> Z -> (Z -> Z -> pixel).

Section Script.

Variable resample : kernels.

(** [im.resize(size, flt)]: an image that already has the requested
    size is returned as a copy. *)
Definition resize (im : Image) (size : Z * Z) (flt : Resampling) : Image :=
  if (im_width im =? fst size) && (im_height im =? snd size) then im
  else {| im_mode := im_mode im;
          im_width := fst size;
          im_height := snd size;
          im_data := resample flt im (fst size) (snd size);
          im_palette := im_palette im;
          im_transparency := im_transparency im |}.

(** Lines 29-40: size computation, resize, new canvas, paste. *)
Definition pad_content (cropped : Image) : outcome (Image * Z) :=
  match content_size with
  | Raise e => Raise e
  | Ret csize =>
      let cropped_resized := resize cropped (csize, csize) LANCZOS in
      let final_img := Image_new Mode_RGBA (target_size, target_size) (Pixel 0 0 0 0) in
      let mrg := margin csize in
      match paste final_img cropped_resized (mrg, mrg) cropped_resized with
      | Raise e => Raise e
      | Ret final_img => Ret (final_img, mrg)
      end
  end.

(** Lines 17-18. *)
Definition to_rgba (img : Image) : Image :=
  if negb (mode_eqb (im_mode img) Mode_RGBA) then convert_RGBA img else img.

Definition fix_icon_padding (input_path output_path : string) : IO bool :=
  (let! img := Image_open input_path in
   let img := to_rgba img in
   let bbox := getbbox img in
   match bbox with
   | Some bbox =>
       let! cropped := lift (crop img bbox) in
       let! padded := lift (pad_content cropped) in
       let '(final_img, mrg) := padded in
       do! save final_img output_path PNG in
       do! print (MsgIconFixed output_path) in
       do! print (MsgBBox bbox) in
       do! print (MsgNewSize target_size mrg) in
       ret true
   | None =>
       do! print MsgNoContent in
       ret false
   end)%io.

Definition input_file : string := "assets/icon.png".
Definition output_file : string := "assets/icon.png".

(** The [__main__] block: the process exit code. *)
Definition main : World -> World * Z :=
  fun w => match fix_icon_padding input_file output_file w with
           | (w', Ret true) => (w', 0)
           | (w', Ret false) => (w', 1)
           | (w', Raise e) => (fst (print (MsgError e) w'), 1)
           end.

End Script.

(** ** Concrete inputs *)

(** A kernel to run the script on closed inputs: nearest neighbour,
    whatever the requested filter. *)
Definition nearest_resample : kernels :=
  fun (flt : Resampling) (im : Image) (w h : Z) x y =>
    im_data im (x * im_width im / w) (y * im_height im / h).

(** The 512x512 scenario: opaque colour (r, g, b) on the box
    (100, 100, 400, 400), that is on columns and rows 100 to 399, and
    transparent elsewhere. *)
Definition scenario_image (r g b : Z) : Image :=
  {| im_mode := Mode_RGBA;
     im_width := 512;
     im_height := 512;
     im_data := fun x y =>
       if in_box (100, 100, 400, 400) x y then Pixel r g b 255 else Pixel 0 0 0 0;
     im_palette := no_palette;
     im_transparency := None |}.

(** The same picture with column and row 400 painted as well. *)
Definition scenario_image_inclusive (r g b : Z) : Image :=
  {| im_mode := Mode_RGBA;
     im_width := 512;
     im_height := 512;
     im_data := fun x y =>
       if in_box (100, 100, 401, 401) x y then Pixel r g b 255 else Pixel 0 0 0 0;
     im_palette := no_palette;
     im_transparency := None |}.

(** A world whose only file is [f] at [path], with no permission or
    device problems. *)
Definition world_with (path : string) (f : file) : World :=
  {| fs := {[ path := f ]}; unreadable := ∅; unwritable := ∅;
     write_denial := fun _ => NoPermission;
     write_fault := false; fault_at := AtFirstWrite; stdout := [] |}.


(** ** Specification vocabulary *)

(** [bx] lies inside the first [rows] rows of [im] and is not empty. *)
Definition within (im : Image) (rows : Z) (bx : box) : Prop :=
  let '(l, t, r, b) := bx in
  0 <= l < r /\ r <= im_width im /\ 0 <= t < b /\ b <= rows.

(** Every content pixel of the first [rows] rows lies in [bx]. *)
Definition encloses (im : Image) (rows : Z) (bx : box) : Prop :=
  let '(l, t, r, b) := bx in
  forall x y, 0 <= x < im_width im -> 0 <= y < rows ->
    has_content_at im x y = true -> l <= x < r /\ t <= y < b.

(** Each of the four edges of [bx] carries a content pixel. *)
Definition touches (im : Image) (rows : Z) (bx : box) : Prop :=
  let '(l, t, r, b) := bx in
  (exists x, 0 <= x < im_width im /\ has_content_at im x t = true) /\
  (exists x, 0 <= x < im_width im /\ has_content_at im x (b - 1) = true) /\
  (exists y, 0 <= y < rows /\ has_content_at im l y = true) /\
  (exists y, 0 <= y < rows /\ has_content_at im (r - 1) y = true).

Definition content_free (im : Image) (rows : Z) : Prop :=
  forall x y, 0 <= x < im_width im -> 0 <= y < rows ->
    has_content_at im x y = false.

Definition box_le (a b : box) : Prop :=
  let '(l, t, r, b') := a in
  let '(l', t', r', b'') := b in
  l' <= l /\ t' <= t /\ r <= r' /\ b' <= b''.

(** What one row scan over the columns [0, n) computes from (false, l, r). *)
Definition row_spec (im : Image) (y n l r : Z) (res : bool * Z * Z) : Prop :=
  let '(has, l', r') := res in
  (has = false /\ l' = l /\ r' = r /\
   forall x, 0 <= x < n -> has_content_at im x y = false)
  \/
  (has = true /\ exists x0 x1,
      0 <= x0 <= x1 /\ x1 < n /\
      has_content_at im x0 y = true /\ has_content_at im x1 y = true /\
      l' = Z.min l x0 /\ r' = Z.max r (x1 + 1) /\
      forall x, 0 <= x < n -> has_content_at im x y = true -> x0 <= x <= x1).

(** What the scan of the rows [0, k) has accumulated. *)
Definition rows_spec (im : Image) (k : Z) (st : box) : Prop :=
  (st = (im_width im, -1, 0, 0) /\ content_free im k)
  \/ (within im k st /\ encloses im k st /\ touches im k st).

(** Alpha of the output canvas is zero everywhere outside [bx]. *)
Definition transparent_outside (im : Image) (bx : box) : Prop :=
  forall x y, in_box bx x y = false -> im_data im x y = Pixel 0 0 0 0.

(** Margins that a box leaves inside a square canvas of side [side]:
    (left, top, right, bottom). *)
Definition margins_of (side : Z) (bx : box) : box :=
  let '(l, t, r, b) := bx in (l, t, side - r, side - b).

Definition equal_margins (side : Z) (bx : box) : Prop :=
  let '(ml, mt, mr, mb) := margins_of side bx in
  ml = mt /\ mt = mr /\ mr = mb.

(** The fresh canvas of line 36. *)
Definition canvas : Image :=
  Image_new Mode_RGBA (target_size, target_size) (Pixel 0 0 0 0).

(** The square the script pastes into: (51, 51, 972, 972). *)
Definition content_box : box := (51, 51, 972, 972).

(** The world after a successful run that wrote [final] to [path]. *)
Definition world_after_success (w : World) (path : string) (final : Image)
    (bx : box) (mrg : Z) : World :=
  {| fs := <[path := ImageFile PNG final]> (fs w);
     unreadable := unreadable w; unwritable := unwritable w;
     write_denial := write_denial w;
     write_fault := write_fault w; fault_at := fault_at w;
     stdout := stdout w ++ [MsgIconFixed path; MsgBBox bx; MsgNewSize target_size mrg] |}.

(** The image lines 25-40 build from an RGBA image and its box. *)
Definition padded (resample : kernels) (im : Image) (bx : box) : Image :=
  let resized := resize resample (crop_region im bx) (921, 921) LANCZOS in
  paste_region canvas resized (51, 51) resized.

(** A pixel of the image proper whose alpha is not zero. *)
Definition alpha_content (im : Image) (x y : Z) : Prop :=
  0 <= x < im_width im /\ 0 <= y < im_height im /\ alpha (im_data im x y) <> 0.

Definition contains_alpha (im : Image) (bx : box) : Prop :=
  forall x y, alpha_content im x y -> in_box bx x y = true.

(** [bx] is the least box that holds every pixel of non-zero alpha. *)
Definition minimal_alpha_box (im : Image) (bx : box) : Prop :=
  contains_alpha im bx /\
  forall bx', contains_alpha im bx' -> box_le bx bx'.

Definition fully_transparent (im : Image) : Prop :=
  forall x y, 0 <= x < im_width im -> 0 <= y < im_height im ->
    alpha (im_data im x y) = 0.

(** Content of side 921 with the same margin on all four sides of the
    1024 canvas. *)
Definition centered_with_equal_margins (out : Image) : Prop :=
  exists bx, getbbox out = Some bx /\
    (let '(l, t, r, b) := bx in r - l = 921 /\ b - t = 921) /\
    equal_margins target_size bx.


(** More closed inputs. *)
Definition solid_921 (p : pixel) : Image := Image_new Mode_RGBA (921, 921) p.

Definition opaque_red : pixel := Pixel 255 0 0 255.
Definition half_black : pixel := Pixel 0 0 0 128.

Definition transparent_100 : Image := Image_new Mode_RGBA (100, 100) (Pixel 0 0 0 0).

Definition black_rgb_4 : Image := Image_new Mode_RGB (4, 4) (Pixel 0 0 0 0).

Definition one_pixel : Image := Image_new Mode_RGBA (1, 1) opaque_red.


(** ** Vocabulary for the further properties *)

(** An 8-bit band value, and a pixel made of four of them. *)
Definition is_byte (z : Z) : Prop := 0 <= z <= 255.

Definition byte_pixel (p : pixel) : Prop :=
  is_byte (red p) /\ is_byte (green p) /\ is_byte (blue p) /\ is_byte (alpha p).

(** [P] holds of every integer in [0, n). *)
Definition all_below (n : Z) (P : Z -> bool) : bool := forallb P (zrange n).

(** Two images that a reader of pixels cannot tell apart: same mode, same
    size, same pixels inside the bounds. *)
Definition same_picture (a b : Image) : Prop :=
  im_mode a = im_mode b /\ im_width a = im_width b /\ im_height a = im_height b
  /\ forall x y, 0 <= x < im_width a -> 0 <= y < im_height a ->
       im_data a x y = im_data b x y.

(** A resampling kernel that reads its non-empty source only through the
    pixels inside its bounds. *)
Definition kernel_reads_pixels (resample : kernels) : Prop :=
  forall flt a b w h,
    0 < im_width a -> 0 < im_height a -> same_picture a b ->
    forall x y, 0 <= x < w -> 0 <= y < h ->
      resample flt a w h x y = resample flt b w h x y.

Definition shift_box (dx dy : Z) (bx : box) : box :=
  let '(l, t, r, b) := bx in (l + dx, t + dy, r + dx, b + dy).

(** [big] shows the RGBA picture [small] at offset (dx, dy) and is fully
    transparent around it. *)
Definition transparent_frame (small big : Image) (dx dy : Z) : Prop :=
  im_mode small = Mode_RGBA /\ im_mode big = Mode_RGBA
  /\ 0 <= dx /\ 0 <= dy
  /\ dx + im_width small <= im_width big /\ dy + im_height small <= im_height big
  /\ forall x y, 0 <= x < im_width big -> 0 <= y < im_height big ->
       if in_box (dx, dy, dx + im_width small, dy + im_height small) x y
       then im_data big x y = im_data small (x - dx) (y - dy)
       else alpha (im_data big x y) = 0.

(** The messages a run of [fix_icon_padding] prints, by result. *)
Definition printed (out : string) (bx : box) (r : outcome bool) : list message :=
  match r with
  | Ret true => [MsgIconFixed out; MsgBBox bx; MsgNewSize target_size 51]
  | Ret false => [MsgNoContent]
  | Raise _ => []
  end.

(** The exception [Image.open] raises on a world, if any. *)
Definition open_failure (w : World) (path : string) : option exn :=
  match fs w !! path with
  | None => Some FileNotFoundError
  | Some f =>
      if decide (path ∈ unreadable w) then Some PermissionError
      else match f with
           | ImageFile _ _ => None
           | PartialFile HeaderCut => Some UnidentifiedImageError
           | PartialFile DataCut => Some OSError
           | DataFile _ => Some UnidentifiedImageError
           end
  end.

(** More closed inputs: a 2x2 picture inside a 5x4 transparent frame, a
    faint square, a grey image keyed out by its transparency value, and a
    world without the icon. *)
Definition two_by_two : Image :=
  {| im_mode := Mode_RGBA; im_width := 2; im_height := 2;
     im_data := fun x y => Pixel (10 * x) (10 * y) 7 255;
     im_palette := no_palette; im_transparency := None |}.

Definition framed_two_by_two : Image :=
  {| im_mode := Mode_RGBA; im_width := 5; im_height := 4;
     im_data := fun x y =>
       if in_box (2, 1, 4, 3) x y then Pixel (10 * (x - 2)) (10 * (y - 1)) 7 255
       else Pixel 9 9 9 0;
     im_palette := no_palette; im_transparency := None |}.

Definition faint_pixel : pixel := Pixel 200 200 200 5.

Definition keyed_grey : Image :=
  {| im_mode := Mode_L; im_width := 2; im_height := 2;
     im_data := fun _ _ => Pixel 7 0 0 0;
     im_palette := no_palette; im_transparency := Some (TrnsValue 7) |}.

Definition empty_world : World :=
  {| fs := ∅; unreadable := ∅; unwritable := ∅;
     write_denial := fun _ => NoPermission;
     write_fault := false; fault_at := AtFirstWrite; stdout := [] |}.



(** An image whose pixels inside the bounds are made of bytes. *)
Definition byte_image (im : Image) : Prop :=
  forall x y, 0 <= x < im_width im -> 0 <= y < im_height im ->
    byte_pixel (im_data im x y).

(** A resampling kernel that computes bytes from a non-empty source made
    of bytes (the kernels clip their results to 8 bits). *)
Definition kernel_yields_bytes (resample : kernels) : Prop :=
  forall flt src w h,
    0 < im_width src -> 0 < im_height src -> byte_image src ->
    forall x y, 0 <= x < w -> 0 <= y < h -> byte_pixel (resample flt src w h x y).

(** A pixel composited by its own alpha onto transparent black: each band
    is multiplied by alpha / 255 and rounded. *)
Definition pasted_pixel_of (s : pixel) : pixel :=
  Pixel (DIV255 (red s * alpha s)) (DIV255 (green s * alpha s))
        (DIV255 (blue s * alpha s)) (DIV255 (alpha s * alpha s)).

(** Each of the four edges of the 921x921 content has a pixel that stays
    visible in the paste (alpha at least 12). *)
Definition edges_visible (resized : Image) : Prop :=
  (exists u, 0 <= u < 921 /\ 12 <= alpha (im_data resized u 0))
  /\ (exists u, 0 <= u < 921 /\ 12 <= alpha (im_data resized u 920))
  /\ (exists v, 0 <= v < 921 /\ 12 <= alpha (im_data resized 0 v))
  /\ (exists v, 0 <= v < 921 /\ 12 <= alpha (im_data resized 920 v)).

(** ** Ranges *)

Lemma zrange_nonpos (n : Z) : n <= 0 -> zrange n = [].
Proof.
  intros Hn. unfold zrange.
  replace (Z.to_nat n) with 0%nat by lia. reflexivity.
Qed.

Lemma zrange_snoc (n : Z) : 0 <= n -> zrange (n + 1) = zrange n ++ [n].
Proof.
  intros Hn. unfold zrange.
  replace (Z.to_nat (n + 1)) with (S (Z.to_nat n)) by lia.
  rewrite seq_S, map_app. cbn [map Nat.add].
  rewrite Z2Nat.id by assumption. reflexivity.
Qed.

Lemma fold_zrange_snoc {A} (f : A -> Z -> A) (a : A) (n : Z) :
  0 <= n -> fold_left f (zrange (n + 1)) a = f (fold_left f (zrange n) a) n.
Proof.
  intros Hn. rewrite zrange_snoc by assumption.
  rewrite fold_left_app. reflexivity.
Qed.

(** ** The bounding-box scan *)

Section Scan.

Variable im : Image.

Lemma scan_pixel_eq (y : Z) (has : bool) (l r x : Z) :
  scan_pixel im y (has, l, r) x =
  if has_content_at im x y then (true, Z.min l x, Z.max r (x + 1))
  else (has, l, r).
Proof.
  unfold scan_pixel. destruct (has_content_at im x y); [|reflexivity].
  f_equal; [f_equal|].
  - destruct (Z.ltb_spec x l); lia.
  - unfold Z.geb. destruct (Z.compare_spec x r); lia.
Qed.

Lemma row_scan_spec (y l r n : Z) :
  row_spec im y n l r (fold_left (scan_pixel im y) (zrange n) (false, l, r)).
Proof.
  destruct (Z.lt_ge_cases n 0) as [Hneg|Hn].
  { rewrite zrange_nonpos by lia. cbn. left. split_and!; try reflexivity.
    intros; lia. }
  pattern n. apply natlike_ind; [| |exact Hn]; clear n Hn.
  - rewrite zrange_nonpos by lia. cbn. left. split_and!; try reflexivity.
    intros; lia.
  - intros n Hn IH. unfold Z.succ. rewrite fold_zrange_snoc by assumption.
    destruct (fold_left (scan_pixel im y) (zrange n) (false, l, r))
      as [[has l'] r'].
    rewrite scan_pixel_eq. unfold row_spec in IH |- *.
    destruct (has_content_at im n y) eqn:Hc.
    + right. split; [reflexivity|].
      destruct IH as [(_ & -> & -> & Hfree)
                     | (_ & x0 & x1 & H01 & H1n & Hc0 & Hc1 & -> & -> & Hall)].
      * exists n, n. split_and!; try lia; try assumption.
        intros x Hx Hcx. destruct (Z.eq_dec x n); [lia|].
        rewrite Hfree in Hcx by lia. discriminate.
      * exists x0, n. split_and!; try lia; try assumption.
        intros x Hx Hcx. destruct (Z.eq_dec x n); [lia|].
        specialize (Hall x ltac:(lia) Hcx). lia.
    + destruct IH as [(-> & -> & -> & Hfree)
                     | (-> & x0 & x1 & H01 & H1n & Hc0 & Hc1 & -> & -> & Hall)].
      * left. split_and!; try reflexivity.
        intros x Hx. destruct (Z.eq_dec x n) as [->|]; [assumption|].
        apply Hfree; lia.
      * right. split; [reflexivity|]. exists x0, x1.
        split_and!; try lia; try assumption.
        intros x Hx Hcx. destruct (Z.eq_dec x n) as [->|]; [congruence|].
        specialize (Hall x ltac:(lia) Hcx). lia.
Qed.

Lemma in_box_true (bx : box) (x y : Z) :
  in_box bx x y = true <->
  let '(l, t, r, b) := bx in l <= x < r /\ t <= y < b.
Proof.
  destruct bx as [[[l t] r] b]. unfold in_box.
  rewrite !andb_true_iff, !Z.leb_le, !Z.ltb_lt. lia.
Qed.

Lemma scan_row_step (k : Z) (st : box) :
  0 <= k -> rows_spec im k st -> rows_spec im (k + 1) (scan_row im st k).
Proof.
  intros Hk Hst. destruct st as [[[l t] r] b]. unfold scan_row.
  pose proof (row_scan_spec k l r (im_width im)) as Hrow.
  destruct (fold_left (scan_pixel im k) (zrange (im_width im)) (false, l, r))
    as [[has l'] r'].
  destruct Hrow as [(-> & -> & -> & Hfree)
                   | (-> & x0 & x1 & H01 & H1w & Hc0 & Hc1 & -> & -> & Hall)].
  - (* row k is empty: the state is unchanged *)
    destruct Hst as [[Hinit Hcf] | (Hin & Hen & Hto)].
    + left. split; [assumption|].
      intros x y Hx Hy. destruct (Z.eq_dec y k) as [->|]; [auto|].
      apply Hcf; lia.
    + right. unfold within, encloses, touches in *. split_and!; try lia.
      * intros x y Hx Hy Hc. destruct (Z.eq_dec y k) as [->|].
        -- rewrite Hfree in Hc by lia. discriminate.
        -- apply Hen; [lia|lia|assumption].
      * apply Hto.
      * apply Hto.
      * destruct Hto as (_ & _ & (y & Hy & Hc) & _). exists y. split; [lia|assumption].
      * destruct Hto as (_ & _ & _ & (y & Hy & Hc)). exists y. split; [lia|assumption].
  - (* row k has content between x0 and x1 *)
    right. destruct Hst as [[Hinit Hcf] | (Hin & Hen & Hto)].
    + injection Hinit as -> -> -> ->. cbn [Z.ltb Z.compare].
      rewrite Z.min_r, Z.max_r by lia.
      unfold within, encloses, touches. split_and!; try lia.
      * intros x y Hx Hy Hc. destruct (Z.eq_dec y k) as [->|].
        -- specialize (Hall x Hx Hc). lia.
        -- rewrite Hcf in Hc by lia. discriminate.
      * exists x0. split; [lia|assumption].
      * exists x0. split; [lia|]. replace (k + 1 - 1) with k by lia. assumption.
      * exists k. split; [lia|assumption].
      * exists k. split; [lia|]. replace (x1 + 1 - 1) with x1 by lia. assumption.
    + unfold within, encloses, touches in *.
      destruct (Z.ltb_spec t 0) as [Ht|Ht]; [lia|].
      destruct Hto as (Htop & _ & (yl & Hyl & Hcl) & (yr & Hyr & Hcr)).
      split_and!; try lia.
      * intros x y Hx Hy Hc. destruct (Z.eq_dec y k) as [->|].
        -- specialize (Hall x Hx Hc). lia.
        -- specialize (Hen x y Hx ltac:(lia) Hc). lia.
      * exact Htop.
      * exists x0. split; [lia|]. replace (k + 1 - 1) with k by lia. assumption.
      * destruct (Z.min_spec l x0) as [[_ ->] | [_ ->]].
        -- exists yl. split; [lia|assumption].
        -- exists k. split; [lia|assumption].
      * destruct (Z.max_spec r (x1 + 1)) as [[_ ->] | [_ ->]].
        -- exists k. split; [lia|]. replace (x1 + 1 - 1) with x1 by lia. assumption.
        -- exists yr. split; [lia|assumption].
Qed.

Lemma scan_rows_spec (n : Z) : 0 <= n -> rows_spec im n (scan_rows im n).
Proof.
  intros Hn. pattern n. apply natlike_ind; [| |exact Hn]; clear n Hn.
  - unfold scan_rows. rewrite zrange_nonpos by lia. left.
    split; [reflexivity|]. intros x y Hx Hy. lia.
  - intros n Hn IH. unfold Z.succ, scan_rows.
    rewrite fold_zrange_snoc by assumption.
    apply scan_row_step; assumption.
Qed.

(** The library contract of [getbbox]: a box that is inside the image,
    holds every content pixel and is touched by content on all four
    edges; or no box when there is no content. *)
Lemma getbbox_spec :
  match getbbox im with
  | Some bx => within im (im_height im) bx /\ encloses im (im_height im) bx
               /\ touches im (im_height im) bx
  | None => content_free im (im_height im)
  end.
Proof.
  unfold getbbox.
  destruct (Z.lt_ge_cases (im_height im) 0) as [Hneg|Hh].
  - unfold scan_rows. rewrite zrange_nonpos by lia. cbn.
    intros x y Hx Hy. lia.
  - pose proof (scan_rows_spec _ Hh) as Hs.
    destruct (scan_rows im (im_height im)) as [[[l t] r] b].
    destruct Hs as [[Hinit Hcf] | (Hin & Hen & Hto)].
    + injection Hinit as -> -> -> ->. cbn. assumption.
    + assert (0 <= t) by (unfold within in Hin; lia).
      destruct (Z.ltb_spec t 0); [lia|]. auto.
Qed.

Lemma touches_minimal (bx bx' : box) :
  within im (im_height im) bx -> touches im (im_height im) bx ->
  encloses im (im_height im) bx' -> box_le bx bx'.
Proof.
  destruct bx as [[[l t] r] b], bx' as [[[l' t'] r'] b'].
  unfold within, touches, encloses, box_le.
  intros Hin ((xt & Hxt & Hct) & (xb & Hxb & Hcb) & (yl & Hyl & Hcl) & (yr & Hyr & Hcr)) Hen.
  pose proof (Hen xt t Hxt ltac:(lia) Hct).
  pose proof (Hen xb (b - 1) Hxb ltac:(lia) Hcb).
  pose proof (Hen l yl ltac:(lia) Hyl Hcl).
  pose proof (Hen (r - 1) yr ltac:(lia) Hyr Hcr).
  lia.
Qed.

(** When the content of an image is exactly a rectangle, that rectangle
    is the bounding box. *)
Lemma getbbox_rect (bx : box) :
  within im (im_height im) bx ->
  (forall x y, 0 <= x < im_width im -> 0 <= y < im_height im ->
     has_content_at im x y = in_box bx x y) ->
  getbbox im = Some bx.
Proof.
  intros Hin Hrect. pose proof getbbox_spec as Hspec.
  destruct bx as [[[l t] r] b]. unfold within in Hin.
  assert (Hlt : has_content_at im l t = true).
  { rewrite Hrect by lia. apply in_box_true. lia. }
  assert (Hrb : has_content_at im (r - 1) (b - 1) = true).
  { rewrite Hrect by lia. apply in_box_true. lia. }
  destruct (getbbox im) as [[[[l0 t0] r0] b0]|].
  - destruct Hspec as (Hin0 & Hen0 & Hto0).
    assert (Hle : box_le (l0, t0, r0, b0) (l, t, r, b)).
    { apply touches_minimal; try assumption.
      intros x y Hx Hy Hc. rewrite Hrect in Hc by assumption.
      apply in_box_true in Hc. exact Hc. }
    unfold box_le in Hle.
    pose proof (Hen0 l t ltac:(lia) ltac:(lia) Hlt).
    pose proof (Hen0 (r - 1) (b - 1) ltac:(lia) ltac:(lia) Hrb).
    repeat f_equal; lia.
  - rewrite (Hspec l t) in Hlt by lia. discriminate.
Qed.

End Scan.


(** ** The pipeline, step by step *)

Lemma content_size_eq : content_size = Ret 921.
Proof. vm_compute. reflexivity. Qed.

Lemma margin_eq : margin 921 = 51.
Proof. reflexivity. Qed.

Lemma crop_within (im : Image) (bx : box) :
  within im (im_height im) bx -> crop im bx = Ret (crop_region im bx).
Proof.
  destruct bx as [[[l t] r] b]. unfold within, crop. intros Hin.
  destruct (Z.ltb_spec r l); [lia|]. destruct (Z.ltb_spec b t); [lia|].
  reflexivity.
Qed.

Lemma in_content_box_in_canvas (x y : Z) :
  in_box content_box x y = true -> in_bounds canvas x y = true.
Proof.
  intros H. apply in_box_true in H. unfold content_box in H.
  unfold in_bounds, canvas, Image_new, target_size. cbn [im_width im_height fst snd].
  rewrite !andb_true_iff, !Z.leb_le, !Z.ltb_lt. lia.
Qed.

Section Facts.

Variable resample : kernels.

Lemma resize_width (im : Image) (w h : Z) (flt : Resampling) :
  im_width (resize resample im (w, h) flt) = w.
Proof.
  unfold resize. cbn [fst snd].
  destruct (im_width im =? w) eqn:Hw; [|reflexivity].
  destruct (im_height im =? h); [|reflexivity].
  apply Z.eqb_eq. assumption.
Qed.

Lemma resize_height (im : Image) (w h : Z) (flt : Resampling) :
  im_height (resize resample im (w, h) flt) = h.
Proof.
  unfold resize. cbn [fst snd].
  destruct (im_width im =? w); [|reflexivity].
  destruct (im_height im =? h) eqn:Hh; [|reflexivity].
  apply Z.eqb_eq. assumption.
Qed.

Lemma resize_mode (im : Image) (size : Z * Z) (flt : Resampling) :
  im_mode (resize resample im size flt) = im_mode im.
Proof.
  unfold resize.
  destruct ((im_width im =? fst size) && (im_height im =? snd size)); reflexivity.
Qed.

Lemma pad_content_eq (cropped : Image) :
  im_mode cropped = Mode_RGBA ->
  let resized := resize resample cropped (921, 921) LANCZOS in
  pad_content resample cropped = Ret (paste_region canvas resized (51, 51) resized, 51).
Proof.
  intros Hmode resized. unfold pad_content.
  rewrite content_size_eq, margin_eq. fold canvas. fold resized.
  unfold paste.
  assert (Hm : im_mode resized = Mode_RGBA)
    by (unfold resized; rewrite resize_mode; assumption).
  rewrite Hm. cbn [canvas Image_new im_mode mode_eqb is_mask_mode negb].
  rewrite !Z.eqb_refl. reflexivity.
Qed.

(** Pixel by pixel, what the paste leaves on the canvas. *)
Lemma padded_pixel (resized : Image) (x y : Z) :
  im_mode resized = Mode_RGBA ->
  im_width resized = 921 -> im_height resized = 921 ->
  im_data (paste_region canvas resized (51, 51) resized) x y =
  if in_box content_box x y
  then let s := im_data resized (x - 51) (y - 51) in
       blend_pixel (alpha s) (Pixel 0 0 0 0) s
  else Pixel 0 0 0 0.
Proof.
  intros Hm Hw Hh. unfold paste_region, paste_box. cbn [im_data fst snd].
  rewrite Hw, Hh. change (51 + 921) with 972. fold content_box.
  destruct (in_box content_box x y) eqn:Hbox; [|reflexivity].
  rewrite (in_content_box_in_canvas _ _ Hbox). cbn [andb].
  unfold mask_value. rewrite Hm. reflexivity.
Qed.

Lemma fix_icon_padding_success (w : World) (inp out : string) (fmt : format)
    (img cropped final : Image) (bx : box) (mrg : Z) :
  fs w !! inp = Some (ImageFile fmt img) ->
  inp ∉ unreadable w ->
  getbbox (to_rgba img) = Some bx ->
  crop (to_rgba img) bx = Ret cropped ->
  pad_content resample cropped = Ret (final, mrg) ->
  out ∉ unwritable w ->
  write_fault w = false ->
  fix_icon_padding resample inp out w
  = (world_after_success w out final bx mrg, Ret true).
Proof.
  intros Hf Hr Hbb Hcrop Hpad Hw Hfault.
  unfold fix_icon_padding, bind, Image_open. rewrite Hf.
  destruct (decide (inp ∈ unreadable w)) as [?|_]; [contradiction|].
  rewrite Hbb. unfold lift. rewrite Hcrop, Hpad.
  unfold save. destruct (decide (out ∈ unwritable w)) as [?|_]; [contradiction|].
  rewrite Hfault. unfold print, ret, set_fs, world_after_success.
  cbn [fs unreadable unwritable write_fault stdout].
  rewrite <- !app_assoc. reflexivity.
Qed.

Lemma fix_icon_padding_no_content (w : World) (inp out : string) (fmt : format)
    (img : Image) :
  fs w !! inp = Some (ImageFile fmt img) ->
  inp ∉ unreadable w ->
  getbbox (to_rgba img) = None ->
  fix_icon_padding resample inp out w
  = (fst (print MsgNoContent w), Ret false).
Proof.
  intros Hf Hr Hbb.
  unfold fix_icon_padding, bind, Image_open. rewrite Hf.
  destruct (decide (inp ∈ unreadable w)) as [?|_]; [contradiction|].
  rewrite Hbb. reflexivity.
Qed.

End Facts.

(** ** RGBA views *)

Lemma mode_eqb_eq (a b : mode) : mode_eqb a b = true <-> a = b.
Proof. destruct a, b; cbn; split; congruence. Qed.

Lemma to_rgba_mode (img : Image) : im_mode (to_rgba img) = Mode_RGBA.
Proof.
  unfold to_rgba. destruct (mode_eqb (im_mode img) Mode_RGBA) eqn:E; cbn.
  - apply mode_eqb_eq. assumption.
  - reflexivity.
Qed.

Lemma to_rgba_width (img : Image) : im_width (to_rgba img) = im_width img.
Proof. unfold to_rgba. destruct (negb _); reflexivity. Qed.

Lemma to_rgba_height (img : Image) : im_height (to_rgba img) = im_height img.
Proof. unfold to_rgba. destruct (negb _); reflexivity. Qed.

Lemma has_content_rgba (im : Image) (x y : Z) :
  im_mode im = Mode_RGBA ->
  has_content_at im x y = negb (alpha (im_data im x y) =? 0).
Proof. intros H. unfold has_content_at. rewrite H. reflexivity. Qed.

Lemma has_content_alpha (im : Image) (x y : Z) :
  im_mode im = Mode_RGBA ->
  has_content_at im x y = true <-> alpha (im_data im x y) <> 0.
Proof.
  intros H. rewrite has_content_rgba by assumption.
  rewrite negb_true_iff, Z.eqb_neq. reflexivity.
Qed.

Lemma crop_region_mode (im : Image) (bx : box) :
  im_mode (crop_region im bx) = im_mode im.
Proof. destruct bx as [[[l t] r] b]. reflexivity. Qed.

(** For an RGBA image the box of [getbbox] is the least box around the
    pixels of non-zero alpha. *)
Lemma getbbox_minimal_alpha (im : Image) (bx : box) :
  im_mode im = Mode_RGBA -> getbbox im = Some bx ->
  within im (im_height im) bx /\ minimal_alpha_box im bx.
Proof.
  intros Hm Hbb. pose proof (getbbox_spec im) as Hs. rewrite Hbb in Hs.
  destruct Hs as (Hin & Hen & Hto). split; [assumption|]. split.
  - intros x y (Hx & Hy & Ha). apply in_box_true.
    destruct bx as [[[l t] r] b]. apply Hen; try assumption.
    apply has_content_alpha; assumption.
  - intros bx' Hc. apply (touches_minimal im); try assumption.
    destruct bx' as [[[l' t'] r'] b']. intros x y Hx Hy Hcont.
    apply (in_box_true (l', t', r', b')). apply Hc.
    split_and!; try lia. apply has_content_alpha; assumption.
Qed.

Lemma getbbox_none_iff (im : Image) :
  im_mode im = Mode_RGBA -> (getbbox im = None <-> fully_transparent im).
Proof.
  intros Hm. pose proof (getbbox_spec im) as Hs. split.
  - intros Hn. rewrite Hn in Hs. intros x y Hx Hy.
    specialize (Hs x y Hx Hy). rewrite has_content_rgba in Hs by assumption.
    apply negb_false_iff, Z.eqb_eq in Hs. assumption.
  - intros Hft. destruct (getbbox im) as [[[[l t] r] b]|]; [|reflexivity].
    destruct Hs as (Hin & _ & (x & Hx & Hc) & _). unfold within in Hin.
    apply has_content_alpha in Hc; [|assumption].
    exfalso. apply Hc. apply Hft; lia.
Qed.

(** ** Whole runs *)

Section Runs.

Variable resample : kernels.

Lemma padded_mode (im : Image) (bx : box) : im_mode (padded resample im bx) = Mode_RGBA.
Proof. reflexivity. Qed.

Lemma padded_width (im : Image) (bx : box) : im_width (padded resample im bx) = 1024.
Proof. reflexivity. Qed.

Lemma padded_height (im : Image) (bx : box) : im_height (padded resample im bx) = 1024.
Proof. reflexivity. Qed.

Lemma pad_content_padded (im : Image) (bx : box) :
  im_mode im = Mode_RGBA ->
  pad_content resample (crop_region im bx) = Ret (padded resample im bx, 51).
Proof.
  intros Hm. apply pad_content_eq. rewrite crop_region_mode. assumption.
Qed.

(** Whatever the crop, a padded image that [pad_content] returns is the
    1024x1024 RGBA canvas, and the margin is 51. *)
Lemma pad_content_final (cropped final : Image) (mrg : Z) :
  pad_content resample cropped = Ret (final, mrg) ->
  im_mode final = Mode_RGBA /\ im_width final = 1024 /\ im_height final = 1024
  /\ mrg = 51.
Proof.
  unfold pad_content. rewrite content_size_eq, margin_eq. unfold paste.
  destruct (negb (is_mask_mode _)); [discriminate|].
  destruct (negb _); [discriminate|].
  intros H. injection H as <- <-. split_and!; reflexivity.
Qed.

(** A run on a decodable image with content, on a healthy device. *)
Lemma fix_icon_padding_content (w : World) (inp out : string) (fmt : format)
    (img : Image) (bx : box) :
  fs w !! inp = Some (ImageFile fmt img) ->
  inp ∉ unreadable w ->
  getbbox (to_rgba img) = Some bx ->
  out ∉ unwritable w ->
  write_fault w = false ->
  fix_icon_padding resample inp out w
  = (world_after_success w out (padded resample (to_rgba img) bx) bx 51, Ret true).
Proof.
  intros Hf Hr Hbb Hw Hfault.
  pose proof (getbbox_spec (to_rgba img)) as Hs. rewrite Hbb in Hs.
  destruct Hs as (Hin & _).
  eapply fix_icon_padding_success; eauto using crop_within.
  apply pad_content_padded, to_rgba_mode.
Qed.


(** When the box is already 921x921 the resize is the identity, and each
    pixel of the pasted square is the source pixel blended by its own
    alpha onto transparent black. *)
Lemma padded_square_pixel (im : Image) (l t r b x y : Z) :
  im_mode im = Mode_RGBA ->
  within im (im_height im) (l, t, r, b) ->
  r - l = 921 -> b - t = 921 ->
  im_data (padded resample im (l, t, r, b)) x y =
  if in_box content_box x y
  then let s := im_data im (x - 51 + l) (y - 51 + t) in
       blend_pixel (alpha s) (Pixel 0 0 0 0) s
  else Pixel 0 0 0 0.
Proof.
  intros Hm Hin Hw Hh. unfold padded.
  assert (Hres : resize resample (crop_region im (l, t, r, b)) (921, 921) LANCZOS
                 = crop_region im (l, t, r, b)).
  { unfold resize. cbn [crop_region im_width im_height fst snd].
    rewrite Hw, Hh. reflexivity. }
  rewrite Hres.
  rewrite padded_pixel; [| rewrite crop_region_mode; assumption
                         | cbn [crop_region im_width]; assumption
                         | cbn [crop_region im_height]; assumption ].
  destruct (in_box content_box x y) eqn:Hbox; [|reflexivity].
  apply in_box_true in Hbox. unfold content_box in Hbox.
  cbn [crop_region im_data]. unfold within in Hin.
  assert (Hb : in_bounds im (x - 51 + l) (y - 51 + t) = true).
  { unfold in_bounds. rewrite !andb_true_iff, !Z.leb_le, !Z.ltb_lt. lia. }
  rewrite Hb. reflexivity.
Qed.

(** Every way a run can end: the file system afterwards, per result. *)
Lemma fix_icon_padding_cases (inp out : string) (w : World) :
  let '(w', r) := fix_icon_padding resample inp out w in
  match r with
  | Ret true =>
      exists final, fs w' = <[out := ImageFile PNG final]> (fs w)
        /\ im_mode final = Mode_RGBA /\ im_width final = 1024 /\ im_height final = 1024
  | Ret false => fs w' = fs w
  | Raise e =>
      fs w' = fs w
      \/ (e = OSError /\ write_fault w = true /\ (out ∉ unwritable w)
          /\ exists final,
               fs w' = <[out := fault_leftover (fault_at w) PNG final]> (fs w)
               /\ im_mode final = Mode_RGBA
               /\ im_width final = 1024 /\ im_height final = 1024)
  end.
Proof.
  unfold fix_icon_padding, bind, Image_open.
  destruct (fs w !! inp) as [f|]; [|left; reflexivity].
  destruct (decide (inp ∈ unreadable w)); [left; reflexivity|].
  destruct f as [fmt img|[|]|c]; [|left; reflexivity|left; reflexivity|left; reflexivity].
  destruct (getbbox (to_rgba img)) as [bx|]; [|reflexivity].
  unfold lift. destruct (crop (to_rgba img) bx) as [cropped|e]; [|left; reflexivity].
  destruct (pad_content resample cropped) as [[final mrg]|e] eqn:Hpad;
    [|left; reflexivity].
  apply pad_content_final in Hpad. destruct Hpad as (Hm & Hw & Hh & _).
  unfold save. destruct (decide (out ∈ unwritable w)); [left; reflexivity|].
  destruct (write_fault w) eqn:Hfault.
  - cbn. right. split_and!; auto. exists final. split_and!; auto.
  - cbn. exists final. split_and!; auto.
Qed.

End Runs.

Lemma padded_outside (resample : kernels) (im : Image) (bx : box) (x y : Z) :
  in_box content_box x y = false ->
  im_data (padded resample im bx) x y = Pixel 0 0 0 0.
Proof.
  intros Hout. unfold padded, paste_region, paste_box. cbn [im_data fst snd].
  rewrite resize_width, resize_height. change (51 + 921) with 972.
  fold content_box. rewrite Hout. reflexivity.
Qed.

Lemma world_with_lookup (path : string) (f : file) :
  fs (world_with path f) !! path = Some f.
Proof. unfold world_with. cbn [fs]. apply lookup_singleton_eq. Qed.

Lemma world_with_readable (path p : string) (f : file) :
  p ∉ unreadable (world_with path f).
Proof. unfold world_with. cbn [unreadable]. apply not_elem_of_empty. Qed.

Lemma world_with_writable (path p : string) (f : file) :
  p ∉ unwritable (world_with path f).
Proof. unfold world_with. cbn [unwritable]. apply not_elem_of_empty. Qed.

(** ** Runs on solid 921x921 squares: no resampling takes place *)

Section SolidRuns.

Variable resample : kernels.

Lemma solid_bbox (p : pixel) :
  alpha p <> 0 -> getbbox (solid_921 p) = Some (0, 0, 921, 921).
Proof.
  intros Ha. apply getbbox_rect.
  - unfold within. cbn. lia.
  - intros x y Hx Hy. cbn in Hx, Hy.
    rewrite has_content_rgba by reflexivity. cbn [solid_921 Image_new im_data].
    apply Z.eqb_neq in Ha. rewrite Ha. symmetry. apply in_box_true. lia.
Qed.

Lemma padded_solid_pixel (p : pixel) (x y : Z) :
  im_data (padded resample (solid_921 p) (0, 0, 921, 921)) x y =
  if in_box content_box x y
  then blend_pixel (alpha p) (Pixel 0 0 0 0) p
  else Pixel 0 0 0 0.
Proof.
  rewrite padded_square_pixel; [reflexivity | reflexivity | | reflexivity | reflexivity].
  unfold within. cbn. lia.
Qed.

Lemma padded_solid_bbox (p : pixel) :
  BLEND (alpha p) 0 (alpha p) <> 0 ->
  getbbox (padded resample (solid_921 p) (0, 0, 921, 921)) = Some content_box.
Proof.
  intros Hb. apply getbbox_rect.
  - unfold within, content_box. rewrite padded_width, padded_height. lia.
  - intros x y _ _. rewrite has_content_rgba by reflexivity.
    rewrite padded_solid_pixel.
    destruct (in_box content_box x y); cbn [blend_pixel alpha].
    + apply Z.eqb_neq in Hb. rewrite Hb. reflexivity.
    + reflexivity.
Qed.

(** The second run on such an output: the box found is the pasted square
    again, and each pixel is blended by its alpha a second time. *)
Lemma repadded_solid_pixel (p : pixel) (x y : Z) :
  let out1 := padded resample (solid_921 p) (0, 0, 921, 921) in
  im_data (padded resample out1 content_box) x y =
  if in_box content_box x y
  then let s := blend_pixel (alpha p) (Pixel 0 0 0 0) p in
       blend_pixel (alpha s) (Pixel 0 0 0 0) s
  else Pixel 0 0 0 0.
Proof.
  intros out1. unfold content_box at 1.
  rewrite padded_square_pixel; [| reflexivity | | reflexivity | reflexivity].
  - destruct (in_box content_box x y) eqn:Hbox; [|reflexivity].
    unfold out1. rewrite padded_solid_pixel.
    replace (in_box content_box (x - 51 + 51) (y - 51 + 51)) with true; [reflexivity|].
    replace (x - 51 + 51) with x by lia. replace (y - 51 + 51) with y by lia.
    symmetry. assumption.
  - unfold within, out1. rewrite padded_width, padded_height. lia.
Qed.

(** One in-place run of [main] on a healthy device whose icon has content. *)
Lemma main_content (w : World) (fmt : format) (img : Image) (bx : box) :
  fs w !! input_file = Some (ImageFile fmt img) ->
  input_file ∉ unreadable w ->
  getbbox (to_rgba img) = Some bx ->
  output_file ∉ unwritable w ->
  write_fault w = false ->
  main resample w
  = (world_after_success w output_file (padded resample (to_rgba img) bx) bx 51, 0).
Proof.
  intros Hf Hr Hbb Hw Hfault. unfold main.
  rewrite (fix_icon_padding_content resample w _ _ fmt img bx Hf Hr Hbb Hw Hfault).
  reflexivity.
Qed.

(** Opaque content is a fixed point of the second run: blending with
    alpha 255 copies the pixel. *)
Lemma opaque_square_fixed_point (x y : Z) :
  let out1 := padded resample (solid_921 opaque_red) (0, 0, 921, 921) in
  im_data (padded resample out1 content_box) x y = im_data out1 x y.
Proof.
  intros out1. unfold out1. rewrite repadded_solid_pixel, padded_solid_pixel. destruct (in_box content_box x y); reflexivity.
Qed.

End SolidRuns.

(** ** Byte arithmetic of the blend *)

Lemma in_zrange (n a : Z) : In a (zrange n) <-> 0 <= a < n.
Proof.
  unfold zrange. rewrite in_map_iff. split.
  - intros (k & <- & Hk). apply in_seq in Hk. lia.
  - intros Ha. exists (Z.to_nat a). split; [lia|]. apply in_seq. lia.
Qed.

Lemma all_below_spec (n : Z) (P : Z -> bool) :
  all_below n P = true -> forall a, 0 <= a < n -> P a = true.
Proof.
  unfold all_below. intros H a Ha.
  apply (proj1 (forallb_forall P (zrange n)) H). apply in_zrange. assumption.
Qed.

Lemma blend_alpha_le (a : Z) : is_byte a -> 0 <= BLEND a 0 a <= a.
Proof.
  intros Ha.
  assert (H : all_below 256 (fun a => (0 <=? BLEND a 0 a) && (BLEND a 0 a <=? a)) = true)
    by (vm_compute; reflexivity).
  apply all_below_spec with (a := a) in H; [|unfold is_byte in Ha; lia].
  apply andb_true_iff in H. rewrite !Z.leb_le in H. exact H.
Qed.

Lemma blend_alpha_fixed (a : Z) :
  is_byte a -> (BLEND a 0 a = a <-> a = 0 \/ a = 255).
Proof.
  intros Ha.
  assert (H : all_below 256 (fun a => Bool.eqb (BLEND a 0 a =? a)
                                        ((a =? 0) || (a =? 255))) = true)
    by (vm_compute; reflexivity).
  apply all_below_spec with (a := a) in H; [|unfold is_byte in Ha; lia].
  apply eqb_prop in H. rewrite <- Z.eqb_eq, H, orb_true_iff, !Z.eqb_eq.
  reflexivity.
Qed.

Lemma blend_faint (a : Z) : 0 <= a <= 11 -> BLEND a 0 a = 0.
Proof.
  intros Ha.
  assert (H : all_below 12 (fun a => BLEND a 0 a =? 0) = true)
    by (vm_compute; reflexivity).
  apply all_below_spec with (a := a) in H; [|lia].
  apply Z.eqb_eq. exact H.
Qed.

Lemma blend_visible (a : Z) : 12 <= a <= 255 -> BLEND a 0 a <> 0.
Proof.
  intros Ha.
  assert (H : all_below 256 (fun a => (a <? 12) || negb (BLEND a 0 a =? 0)) = true)
    by (vm_compute; reflexivity).
  apply all_below_spec with (a := a) in H; [|lia].
  apply orb_true_iff in H. destruct H as [H|H].
  - apply Z.ltb_lt in H. lia.
  - apply negb_true_iff, Z.eqb_neq in H. exact H.
Qed.

Lemma blend_opaque (c : Z) : is_byte c -> BLEND 255 0 c = c.
Proof.
  intros Hc.
  assert (H : all_below 256 (fun c => BLEND 255 0 c =? c) = true)
    by (vm_compute; reflexivity).
  apply all_below_spec with (a := c) in H; [|unfold is_byte in Hc; lia].
  apply Z.eqb_eq. exact H.
Qed.

Lemma blend_channel_le (a c : Z) :
  is_byte a -> is_byte c -> 0 <= BLEND a 0 c <= c.
Proof.
  intros Ha Hc.
  assert (H : all_below 256 (fun a => all_below 256 (fun c =>
                (0 <=? BLEND a 0 c) && (BLEND a 0 c <=? c))) = true)
    by (vm_compute; reflexivity).
  apply all_below_spec with (a := a) in H; [|unfold is_byte in Ha; lia].
  apply all_below_spec with (a := c) in H; [|unfold is_byte in Hc; lia].
  apply andb_true_iff in H. rewrite !Z.leb_le in H. exact H.
Qed.

Lemma blend_pixel_opaque (s : pixel) :
  byte_pixel s -> alpha s = 255 -> blend_pixel (alpha s) (Pixel 0 0 0 0) s = s.
Proof.
  destruct s as [r g b a]. unfold byte_pixel. cbn [red green blue alpha].
  intros (Hr & Hg & Hb & Ha) ->. unfold blend_pixel. cbn [red green blue alpha].
  rewrite !blend_opaque by assumption. reflexivity.
Qed.

(** ** The bounding box, once more *)

(** The contract of [getbbox] determines its result. *)
Lemma getbbox_unique (im : Image) (bx : box) :
  within im (im_height im) bx -> encloses im (im_height im) bx ->
  touches im (im_height im) bx -> getbbox im = Some bx.
Proof.
  intros Hin Hen Hto. pose proof (getbbox_spec im) as Hs.
  destruct (getbbox im) as [bx0|].
  - destruct Hs as (Hin0 & Hen0 & Hto0).
    pose proof (touches_minimal im bx0 bx Hin0 Hto0 Hen) as H1.
    pose proof (touches_minimal im bx bx0 Hin Hto Hen0) as H2.
    destruct bx as [[[l t] r] b], bx0 as [[[l0 t0] r0] b0].
    unfold box_le in H1, H2. repeat f_equal; lia.
  - destruct bx as [[[l t] r] b]. unfold within in Hin.
    destruct Hto as ((x & Hx & Hc) & _).
    rewrite (Hs x t) in Hc by lia. discriminate.
Qed.

Lemma has_content_crop (im : Image) (l t r b x y : Z) :
  0 <= l -> r <= im_width im -> 0 <= t -> b <= im_height im ->
  0 <= x < r - l -> 0 <= y < b - t ->
  has_content_at (crop_region im (l, t, r, b)) x y = has_content_at im (x + l) (y + t).
Proof.
  intros Hl Hr Ht Hb Hx Hy. unfold has_content_at.
  cbn [crop_region im_mode im_data].
  assert (Hib : in_bounds im (x + l) (y + t) = true).
  { unfold in_bounds. rewrite !andb_true_iff, !Z.leb_le, !Z.ltb_lt. lia. }
  rewrite Hib. reflexivity.
Qed.

Lemma frame_content (small big : Image) (dx dy x y : Z) :
  transparent_frame small big dx dy ->
  0 <= x < im_width big -> 0 <= y < im_height big ->
  has_content_at big x y =
  in_box (dx, dy, dx + im_width small, dy + im_height small) x y
  && has_content_at small (x - dx) (y - dy).
Proof.
  intros (Hms & Hmb & _ & _ & _ & _ & Hd) Hx Hy.
  specialize (Hd x y Hx Hy).
  rewrite !has_content_rgba by assumption.
  destruct (in_box _ x y).
  - rewrite Hd. reflexivity.
  - rewrite Hd. reflexivity.
Qed.

Lemma frame_bbox (small big : Image) (dx dy : Z) (bx : box) :
  transparent_frame small big dx dy ->
  getbbox small = Some bx -> getbbox big = Some (shift_box dx dy bx).
Proof.
  intros Hfr Hbb. pose proof Hfr as (Hms & Hmb & Hdx & Hdy & Hwd & Hhd & _).
  pose proof (getbbox_spec small) as Hs. rewrite Hbb in Hs.
  destruct bx as [[[l t] r] b]. destruct Hs as (Hin & Hen & Hto).
  unfold within in Hin. unfold shift_box.
  assert (Hshift : forall x y, 0 <= x < im_width small -> 0 <= y < im_height small ->
            has_content_at big (x + dx) (y + dy) = has_content_at small x y).
  { intros x y Hx Hy. rewrite (frame_content small big dx dy) by (assumption || lia).
    replace (x + dx - dx) with x by lia. replace (y + dy - dy) with y by lia.
    replace (in_box _ (x + dx) (y + dy)) with true; [reflexivity|].
    symmetry. apply in_box_true. lia. }
  apply getbbox_unique.
  - unfold within. lia.
  - intros x y Hx Hy Hc.
    rewrite (frame_content small big dx dy) in Hc by assumption.
    apply andb_true_iff in Hc. destruct Hc as [Hib Hc]. apply in_box_true in Hib.
    specialize (Hen (x - dx) (y - dy) ltac:(lia) ltac:(lia) Hc). lia.
  - unfold touches in *.
    destruct Hto as ((x1 & Hx1 & Hc1) & (x2 & Hx2 & Hc2)
                     & (y3 & Hy3 & Hc3) & (y4 & Hy4 & Hc4)).
    split_and!.
    + exists (x1 + dx). split; [lia|]. rewrite Hshift by lia. assumption.
    + exists (x2 + dx). split; [lia|].
      replace (b + dy - 1) with (b - 1 + dy) by lia. rewrite Hshift by lia. assumption.
    + exists (y3 + dy). split; [lia|]. rewrite Hshift by lia. assumption.
    + exists (y4 + dy). split; [lia|].
      replace (r + dx - 1) with (r - 1 + dx) by lia. rewrite Hshift by lia. assumption.
Qed.

Lemma frame_crop_same (small big : Image) (dx dy l t r b : Z) :
  transparent_frame small big dx dy ->
  within small (im_height small) (l, t, r, b) ->
  same_picture (crop_region small (l, t, r, b))
               (crop_region big (shift_box dx dy (l, t, r, b))).
Proof.
  intros (Hms & Hmb & Hdx & Hdy & Hwd & Hhd & Hd) Hin. unfold within in Hin.
  unfold same_picture, shift_box. cbn [crop_region im_mode im_width im_height im_data].
  split_and!; [congruence | lia | lia |].
  intros x y Hx Hy.
  assert (H1 : in_bounds small (x + l) (y + t) = true).
  { unfold in_bounds. rewrite !andb_true_iff, !Z.leb_le, !Z.ltb_lt. lia. }
  assert (H2 : in_bounds big (x + (l + dx)) (y + (t + dy)) = true).
  { unfold in_bounds. rewrite !andb_true_iff, !Z.leb_le, !Z.ltb_lt. lia. }
  rewrite H1, H2.
  specialize (Hd (x + (l + dx)) (y + (t + dy)) ltac:(lia) ltac:(lia)).
  replace (in_box _ (x + (l + dx)) (y + (t + dy))) with true in Hd
    by (symmetry; apply in_box_true; lia).
  rewrite Hd. f_equal; lia.
Qed.

Section Extensional.

Variable resample : kernels.
Hypothesis Hker : kernel_reads_pixels resample.

(** Crops that show the same picture are padded to the same image. *)
Lemma pasted_same_picture (c1 c2 : Image) (x y : Z) :
  im_mode c1 = Mode_RGBA ->
  0 < im_width c1 -> 0 < im_height c1 ->
  same_picture c1 c2 ->
  let r1 := resize resample c1 (921, 921) LANCZOS in
  let r2 := resize resample c2 (921, 921) LANCZOS in
  im_data (paste_region canvas r1 (51, 51) r1) x y
  = im_data (paste_region canvas r2 (51, 51) r2) x y.
Proof using Hker.
  intros Hm Hw Hh Hsame r1 r2.
  pose proof Hsame as (Hmm & Hww & Hhh & Hd).
  rewrite !padded_pixel;
    try apply resize_width; try apply resize_height;
    try (unfold r1, r2; rewrite resize_mode; congruence).
  destruct (in_box content_box x y) eqn:Hbox; [|reflexivity].
  apply in_box_true in Hbox. unfold content_box in Hbox.
  assert (Heq : im_data r1 (x - 51) (y - 51) = im_data r2 (x - 51) (y - 51)).
  { unfold r1, r2, resize. cbn [fst snd]. rewrite <- Hww, <- Hhh.
    destruct ((im_width c1 =? 921) && (im_height c1 =? 921)) eqn:Hsz.
    - apply andb_true_iff in Hsz. rewrite !Z.eqb_eq in Hsz.
      apply Hd; lia.
    - cbn [im_data]. apply Hker; try assumption; lia. }
  cbv zeta. rewrite Heq. reflexivity.
Qed.

End Extensional.

Lemma nearest_reads_pixels : kernel_reads_pixels nearest_resample.
Proof.
  intros flt a b w h Hw Hh (_ & Hww & Hhh & Hd) x y Hx Hy.
  unfold nearest_resample. rewrite <- Hww, <- Hhh. apply Hd.
  - split; [apply Z.div_pos; nia|]. apply Z.div_lt_upper_bound; nia.
  - split; [apply Z.div_pos; nia|]. apply Z.div_lt_upper_bound; nia.
Qed.

Lemma to_rgba_of_rgba (img : Image) : im_mode img = Mode_RGBA -> to_rgba img = img.
Proof. intros H. unfold to_rgba. rewrite H. reflexivity. Qed.

(** ** Every run, by its result *)

Section RunTable.

Variable resample : kernels.

(** The complete account of a run: what was true of the world before,
    and what the world is after, for each result.  The crop, the resize,
    the paste and the size computation never fail. *)
Lemma fix_icon_padding_inv (inp out : string) (w : World) :
  let '(w', r) := fix_icon_padding resample inp out w in
  (unreadable w' = unreadable w /\ unwritable w' = unwritable w
   /\ write_denial w' = write_denial w
   /\ write_fault w' = write_fault w /\ fault_at w' = fault_at w)
  /\ match r with
     | Ret true =>
         exists fmt img bx,
           fs w !! inp = Some (ImageFile fmt img) /\ (inp ∉ unreadable w)
           /\ getbbox (to_rgba img) = Some bx
           /\ (out ∉ unwritable w) /\ write_fault w = false
           /\ w' = world_after_success w out (padded resample (to_rgba img) bx) bx 51
     | Ret false =>
         exists fmt img,
           fs w !! inp = Some (ImageFile fmt img) /\ (inp ∉ unreadable w)
           /\ getbbox (to_rgba img) = None
           /\ w' = fst (print MsgNoContent w)
     | Raise e =>
         stdout w' = stdout w
         /\ ((open_failure w inp = Some e /\ fs w' = fs w)
             \/ (open_failure w inp = None
                 /\ exists fmt img bx,
                      fs w !! inp = Some (ImageFile fmt img)
                      /\ getbbox (to_rgba img) = Some bx
                      /\ ((out ∈ unwritable w
                           /\ e = denial_exn (write_denial w out) /\ fs w' = fs w)
                          \/ ((out ∉ unwritable w) /\ write_fault w = true
                              /\ e = OSError
                              /\ fs w' = <[out := fault_leftover (fault_at w) PNG
                                                    (padded resample (to_rgba img) bx)]>
                                           (fs w)))))
     end.
Proof.
  unfold fix_icon_padding, bind, Image_open, open_failure.
  destruct (fs w !! inp) as [f|] eqn:Hf;
    [|split; [split_and!; reflexivity|split; [reflexivity|left; auto]]].
  destruct (decide (inp ∈ unreadable w)) as [Hr|Hr];
    [split; [split_and!; reflexivity|split; [reflexivity|left; auto]]|].
  destruct f as [fmt img|[|]|c];
    [|split; [split_and!; reflexivity|split; [reflexivity|left; auto]]
     |split; [split_and!; reflexivity|split; [reflexivity|left; auto]]
     |split; [split_and!; reflexivity|split; [reflexivity|left; auto]]].
  destruct (getbbox (to_rgba img)) as [bx|] eqn:Hbb.
  - pose proof (getbbox_spec (to_rgba img)) as Hs. rewrite Hbb in Hs.
    destruct Hs as (Hin & _).
    unfold lift. rewrite (crop_within _ _ Hin).
    rewrite (pad_content_padded resample _ _ (to_rgba_mode img)).
    unfold save. destruct (decide (out ∈ unwritable w)) as [Hw|Hw].
    + split; [split_and!; reflexivity|]. split; [reflexivity|]. right.
      split; [reflexivity|].
      exists fmt, img, bx. split; [reflexivity|]. split; [exact Hbb|].
      left. auto.
    + destruct (write_fault w) eqn:Hfault.
      * cbn. split; [split_and!; first [reflexivity|assumption]|].
        split; [reflexivity|]. right.
        split; [reflexivity|].
        exists fmt, img, bx. split; [reflexivity|]. split; [exact Hbb|].
        right. split_and!; auto.
      * cbn. split; [split_and!; first [reflexivity|assumption]|].
        exists fmt, img, bx.
        split_and!; auto.
        unfold world_after_success, print, ret, set_fs. cbn.
        rewrite <- !app_assoc. reflexivity.
  - cbn. split; [split_and!; reflexivity|]. exists fmt, img. split_and!; auto.
Qed.

End RunTable.

Lemma padded_resized_pixel (resample : kernels) (im : Image) (bx : box) (x y : Z) :
  im_mode im = Mode_RGBA ->
  im_data (padded resample im bx) x y =
  if in_box content_box x y
  then let s := im_data (resize resample (crop_region im bx) (921, 921) LANCZOS)
                        (x - 51) (y - 51) in
       blend_pixel (alpha s) (Pixel 0 0 0 0) s
  else Pixel 0 0 0 0.
Proof.
  intros Hm. unfold padded. apply padded_pixel.
  - rewrite resize_mode, crop_region_mode. assumption.
  - apply resize_width.
  - apply resize_height.
Qed.

(** ** Bytes through the pipeline, and the composited pixel *)

Lemma blend_onto_transparent (s : pixel) :
  blend_pixel (alpha s) (Pixel 0 0 0 0) s = pasted_pixel_of s.
Proof. reflexivity. Qed.

Lemma pasted_pixel_bytes (s : pixel) :
  byte_pixel s ->
  byte_pixel (pasted_pixel_of s)
  /\ alpha (pasted_pixel_of s) <= alpha s /\ red (pasted_pixel_of s) <= red s
  /\ green (pasted_pixel_of s) <= green s /\ blue (pasted_pixel_of s) <= blue s.
Proof.
  intros (Hr & Hg & Hb & Ha). rewrite <- blend_onto_transparent.
  pose proof (blend_channel_le (alpha s) (red s) Ha Hr).
  pose proof (blend_channel_le (alpha s) (green s) Ha Hg).
  pose proof (blend_channel_le (alpha s) (blue s) Ha Hb).
  pose proof (blend_alpha_le (alpha s) Ha).
  unfold byte_pixel, is_byte in *. unfold blend_pixel. cbn [red green blue alpha].
  lia.
Qed.

Lemma pasted_pixel_visible (s : pixel) :
  is_byte (alpha s) -> (alpha (pasted_pixel_of s) <> 0 <-> 12 <= alpha s).
Proof.
  intros Ha. rewrite <- blend_onto_transparent. unfold blend_pixel. cbn [alpha].
  unfold is_byte in Ha. split.
  - intros Hne. destruct (Z.le_gt_cases 12 (alpha s)) as [?|Hlt]; [assumption|].
    exfalso. apply Hne, blend_faint. lia.
  - intros Hge. apply blend_visible. lia.
Qed.

Lemma pasted_pixel_transparent (s : pixel) :
  alpha s = 0 -> pasted_pixel_of s = Pixel 0 0 0 0.
Proof.
  intros Ha. unfold pasted_pixel_of. rewrite Ha, !Z.mul_0_r. reflexivity.
Qed.

Lemma pasted_pixel_opaque (s : pixel) :
  byte_pixel s -> alpha s = 255 -> pasted_pixel_of s = s.
Proof.
  intros Hb Ha. rewrite <- blend_onto_transparent. apply blend_pixel_opaque; assumption.
Qed.

Lemma crop_bytes (im : Image) (bx : box) :
  byte_image im -> within im (im_height im) bx -> byte_image (crop_region im bx).
Proof.
  destruct bx as [[[l t] r] b]. unfold within. intros Hb Hin x y Hx Hy.
  cbn [crop_region im_width im_height im_data] in *.
  assert (Hib : in_bounds im (x + l) (y + t) = true).
  { unfold in_bounds. rewrite !andb_true_iff, !Z.leb_le, !Z.ltb_lt. lia. }
  rewrite Hib. apply Hb; lia.
Qed.

Lemma nearest_yields_bytes : kernel_yields_bytes nearest_resample.
Proof.
  intros flt src w h Hw Hh Hb x y Hx Hy. unfold nearest_resample. apply Hb.
  - split; [apply Z.div_pos; nia|]. apply Z.div_lt_upper_bound; nia.
  - split; [apply Z.div_pos; nia|]. apply Z.div_lt_upper_bound; nia.
Qed.

Section Bytes.

Variable resample : kernels.
Hypothesis Hkb : kernel_yields_bytes resample.

Lemma resized_bytes (c : Image) (u v : Z) :
  byte_image c -> 0 < im_width c -> 0 < im_height c ->
  0 <= u < 921 -> 0 <= v < 921 ->
  byte_pixel (im_data (resize resample c (921, 921) LANCZOS) u v).
Proof using Hkb.
  intros Hb Hw Hh Hu Hv. unfold resize. cbn [fst snd].
  destruct ((im_width c =? 921) && (im_height c =? 921)) eqn:Hsz.
  - apply andb_true_iff in Hsz. rewrite !Z.eqb_eq in Hsz. apply Hb; lia.
  - cbn [im_data]. apply Hkb; assumption.
Qed.

(** The resized content of a run on an image made of bytes is made of
    bytes. *)
Lemma run_resized_bytes (im : Image) (bx : box) (u v : Z) :
  byte_image im -> getbbox im = Some bx ->
  0 <= u < 921 -> 0 <= v < 921 ->
  byte_pixel (im_data (resize resample (crop_region im bx) (921, 921) LANCZOS) u v).
Proof using Hkb.
  intros Hb Hbb Hu Hv. pose proof (getbbox_spec im) as Hs. rewrite Hbb in Hs.
  destruct Hs as (Hin & _). destruct bx as [[[l t] r] b].
  apply resized_bytes; try assumption.
  - apply crop_bytes; assumption.
  - unfold within in Hin. cbn [crop_region im_width]. lia.
  - unfold within in Hin. cbn [crop_region im_height]. lia.
Qed.

(** The image a run writes is made of bytes. *)
Lemma padded_bytes (im : Image) (bx : box) :
  im_mode im = Mode_RGBA -> byte_image im -> getbbox im = Some bx ->
  byte_image (padded resample im bx).
Proof using Hkb.
  intros Hm Hb Hbb x y _ _. rewrite padded_resized_pixel by assumption.
  destruct (in_box content_box x y) eqn:Hbox.
  - apply in_box_true in Hbox. unfold content_box in Hbox. cbv zeta.
    rewrite blend_onto_transparent. apply pasted_pixel_bytes.
    apply run_resized_bytes; try assumption; lia.
  - unfold byte_pixel, is_byte. cbn. lia.
Qed.

End Bytes.

(** The content box of a padded image is the whole pasted square exactly
    when the edges of the resized content stay visible. *)
Lemma padded_bbox_full_iff (resample : kernels) (im : Image) (bx : box) :
  im_mode im = Mode_RGBA ->
  let resized := resize resample (crop_region im bx) (921, 921) LANCZOS in
  (forall u v, 0 <= u < 921 -> 0 <= v < 921 -> is_byte (alpha (im_data resized u v))) ->
  (getbbox (padded resample im bx) = Some content_box <-> edges_visible resized).
Proof.
  intros Hm resized Hbytes.
  set (out := padded resample im bx).
  assert (Hin : forall x y, in_box content_box x y = true ->
            (has_content_at out x y = true
             <-> 12 <= alpha (im_data resized (x - 51) (y - 51)))).
  { intros x y Hbox. unfold out.
    rewrite has_content_alpha by apply padded_mode.
    rewrite padded_resized_pixel by assumption. rewrite Hbox. fold resized.
    cbv zeta. unfold blend_pixel. cbn [alpha].
    apply in_box_true in Hbox. unfold content_box in Hbox.
    pose proof (Hbytes (x - 51) (y - 51) ltac:(lia) ltac:(lia)) as Hb.
    unfold is_byte in Hb. split.
    - intros Hne. destruct (Z.le_gt_cases 12 (alpha (im_data resized (x - 51) (y - 51))))
        as [?|Hlt]; [assumption|].
      exfalso. apply Hne. apply blend_faint. lia.
    - intros Hge. apply blend_visible. lia. }
  assert (Hout : forall x y, has_content_at out x y = true ->
            in_box content_box x y = true).
  { intros x y Hc. destruct (in_box content_box x y) eqn:Hbox; [reflexivity|].
    unfold out in Hc. rewrite has_content_rgba in Hc by apply padded_mode.
    rewrite padded_outside in Hc by assumption. discriminate. }
  unfold edges_visible. split.
  - intros Hbb. pose proof (getbbox_spec out) as Hs. fold out in Hbb.
    rewrite Hbb in Hs. destruct Hs as (_ & _ & Hto). unfold touches, content_box in Hto.
    destruct Hto as ((x1 & _ & Hc1) & (x2 & _ & Hc2) & (y3 & _ & Hc3) & (y4 & _ & Hc4)).
    pose proof (Hout _ _ Hc1) as B1. pose proof (Hout _ _ Hc2) as B2.
    pose proof (Hout _ _ Hc3) as B3. pose proof (Hout _ _ Hc4) as B4.
    apply (Hin _ _ B1) in Hc1. apply (Hin _ _ B2) in Hc2.
    apply (Hin _ _ B3) in Hc3. apply (Hin _ _ B4) in Hc4.
    apply in_box_true in B1, B2, B3, B4. unfold content_box in B1, B2, B3, B4.
    split_and!.
    + exists (x1 - 51). split; [lia|]. exact Hc1.
    + exists (x2 - 51). split; [lia|]. exact Hc2.
    + exists (y3 - 51). split; [lia|]. exact Hc3.
    + exists (y4 - 51). split; [lia|]. exact Hc4.
  - intros ((u1 & Hu1 & Ha1) & (u2 & Hu2 & Ha2) & (v3 & Hv3 & Ha3) & (v4 & Hv4 & Ha4)).
    apply getbbox_unique.
    + unfold within, content_box, out. rewrite padded_width, padded_height. lia.
    + unfold content_box. intros x y _ _ Hc. apply Hout in Hc.
      apply in_box_true in Hc. exact Hc.
    + unfold touches, content_box, out. rewrite padded_width, padded_height.
      fold out. split_and!.
      * exists (u1 + 51). split; [lia|]. apply Hin; [apply in_box_true; unfold content_box; lia|].
        replace (u1 + 51 - 51) with u1 by lia. exact Ha1.
      * exists (u2 + 51). split; [lia|]. apply Hin; [apply in_box_true; unfold content_box; lia|].
        replace (u2 + 51 - 51) with u2 by lia. exact Ha2.
      * exists (v3 + 51). split; [lia|]. apply Hin; [apply in_box_true; unfold content_box; lia|].
        replace (v3 + 51 - 51) with v3 by lia. exact Ha3.
      * exists (v4 + 51). split; [lia|]. apply Hin; [apply in_box_true; unfold content_box; lia|].
        replace (v4 + 51 - 51) with v4 by lia. exact Ha4.
Qed.

(** * The claims *)

(** C5: with target size 1024 the content size computed by
    [int(target_size * 0.90)] is 921, the floor of 1024 * 0.90, and the
    paste margin [(1024 - 921) // 2] is 51. *)
Theorem C5_content_size_and_margin :
  target_size = 1024 /\ content_size = Ret 921 /\ 1024 * 90 / 100 = 921
  /\ margin 921 = 51 /\ (1024 - 921) / 2 = 51.
Proof.
  split_and!;
    [reflexivity | exact content_size_eq | reflexivity | exact margin_eq | reflexivity].
Qed.

(** C10: the pasted square (51, 51, 972, 972) lies inside the 1024x1024
    canvas, so every pixel of the 921x921 content lands on the canvas and
    nothing outside the square is touched; and a box returned by
    [getbbox] lies within the bounds of the image it was computed from. *)
Theorem C10_paste_and_crop_in_bounds (resample : kernels) (im : Image) (bx : box) :
  getbbox im = Some bx ->
  within im (im_height im) bx
  /\ paste_box (margin 921, margin 921) 921 921 = content_box
  /\ (0 <= margin 921 /\ margin 921 + 921 = 972 /\ 972 <= target_size)
  /\ (forall sx sy, 0 <= sx < 921 -> 0 <= sy < 921 ->
        in_bounds canvas (sx + margin 921) (sy + margin 921) = true)
  /\ (forall x y, in_box content_box x y = false ->
        im_data (padded resample im bx) x y = im_data canvas x y).
Proof.
  intros Hbb. pose proof (getbbox_spec im) as Hs. rewrite Hbb in Hs.
  destruct Hs as (Hin & _).
  split; [assumption|]. split; [reflexivity|].
  split; [rewrite margin_eq; unfold target_size; lia|]. split.
  - intros sx sy Hx Hy. apply in_content_box_in_canvas, in_box_true.
    rewrite margin_eq. unfold content_box. lia.
  - intros x y Hout. rewrite padded_outside by assumption. reflexivity.
Qed.

Lemma C10_witness :
  within one_pixel 1 (0, 0, 1, 1)
  /\ paste_box (margin 921, margin 921) 921 921 = content_box
  /\ (0 <= margin 921 /\ margin 921 + 921 = 972 /\ 972 <= target_size)
  /\ (forall sx sy, 0 <= sx < 921 -> 0 <= sy < 921 ->
        in_bounds canvas (sx + margin 921) (sy + margin 921) = true)
  /\ (forall x y, in_box content_box x y = false ->
        im_data (padded nearest_resample one_pixel (0, 0, 1, 1)) x y
        = im_data canvas x y).
Proof.
  apply (C10_paste_and_crop_in_bounds nearest_resample one_pixel (0, 0, 1, 1)).
  vm_compute. reflexivity.
Defined.

(** C4: whatever the width and height of a non-empty RGBA crop, the script
    resizes it to 921x921 with the LANCZOS filter, allocates a fully
    transparent 1024x1024 RGBA canvas and pastes the resized content at
    (51, 51) with the resized content itself as the mask.  The mask value
    of a pixel is the content's own alpha there; the pixel of the result
    at (x, y) of the square is the content's pixel at (x - 51, y - 51)
    with every band multiplied by that alpha over 255: an opaque pixel is
    copied unchanged, a pixel of alpha zero leaves the canvas
    transparent, and the result is visible exactly where the alpha is at
    least 12.  Outside the square the canvas stays transparent. *)
Theorem C4_resize_canvas_paste (resample : kernels) (cropped : Image) :
  im_mode cropped = Mode_RGBA ->
  0 < im_width cropped -> 0 < im_height cropped ->
  let resized := resize resample cropped (921, 921) LANCZOS in
  let final := paste_region canvas resized (51, 51) resized in
  pad_content resample cropped = Ret (final, 51)
  /\ im_width resized = 921 /\ im_height resized = 921
  /\ (resized = cropped \/ im_data resized = resample LANCZOS cropped 921 921)
  /\ (im_mode canvas = Mode_RGBA /\ im_width canvas = 1024 /\ im_height canvas = 1024
      /\ forall x y, im_data canvas x y = Pixel 0 0 0 0)
  /\ (im_width final = 1024 /\ im_height final = 1024)
  /\ (forall x y,
        im_data final x y =
        if in_box (51, 51, 51 + 921, 51 + 921) x y
        then let s := im_data resized (x - 51) (y - 51) in
             blend_pixel (alpha s) (im_data canvas x y) s
        else im_data canvas x y)
  /\ (forall x y, mask_value resized x y = Some (alpha (im_data resized x y)))
  /\ (forall x y, in_box content_box x y = true ->
        let s := im_data resized (x - 51) (y - 51) in
        im_data final x y = pasted_pixel_of s
        /\ (byte_pixel s -> alpha s = 255 -> im_data final x y = s)
        /\ (alpha s = 0 -> im_data final x y = Pixel 0 0 0 0)
        /\ (is_byte (alpha s) -> (alpha (im_data final x y) <> 0 <-> 12 <= alpha s)))
  /\ (forall x y, in_box content_box x y = false -> im_data final x y = Pixel 0 0 0 0).
Proof.
  intros Hm Hw Hh resized final.
  assert (Hrm : im_mode resized = Mode_RGBA)
    by (unfold resized; rewrite resize_mode; assumption).
  assert (Hpix : forall x y,
            im_data final x y =
            if in_box content_box x y
            then blend_pixel (alpha (im_data resized (x - 51) (y - 51))) (Pixel 0 0 0 0)
                             (im_data resized (x - 51) (y - 51))
            else Pixel 0 0 0 0).
  { intros x y. unfold final.
    rewrite padded_pixel;
      [reflexivity | assumption | apply resize_width | apply resize_height]. }
  split; [apply pad_content_eq; assumption|].
  split; [apply resize_width|]. split; [apply resize_height|].
  split.
  { unfold resized, resize.
    destruct ((im_width cropped =? fst (921, 921)) && (im_height cropped =? snd (921, 921)));
      [left|right]; reflexivity. }
  split; [split_and!; reflexivity|]. split; [split; reflexivity|].
  split; [intros x y; rewrite Hpix; reflexivity|].
  split; [intros x y; unfold mask_value; rewrite Hrm; reflexivity|].
  split.
  - intros x y Hbox. cbv zeta. rewrite Hpix, Hbox, blend_onto_transparent.
    split; [reflexivity|]. split; [|split].
    + intros Hb Ha. apply pasted_pixel_opaque; assumption.
    + apply pasted_pixel_transparent.
    + apply pasted_pixel_visible.
  - intros x y Hbox. rewrite Hpix, Hbox. reflexivity.
Qed.

Lemma C4_witness :
  exists final,
    pad_content nearest_resample one_pixel = Ret (final, 51)
    /\ im_data final 51 51 = opaque_red
    /\ im_data final 971 971 = opaque_red
    /\ im_data final 50 51 = Pixel 0 0 0 0
    /\ im_data final 972 971 = Pixel 0 0 0 0.
Proof.
  destruct (C4_resize_canvas_paste nearest_resample one_pixel)
    as (Hpad & _ & _ & _ & _ & _ & _ & _ & Hin & Hout);
    [reflexivity | cbn; lia | cbn; lia |].
  eexists. split; [exact Hpad|].
  split_and!.
  - apply (Hin 51 51 eq_refl); [vm_compute; intuition discriminate | reflexivity].
  - apply (Hin 971 971 eq_refl); [vm_compute; intuition discriminate | reflexivity].
  - apply (Hout 50 51). reflexivity.
  - apply (Hout 972 971). reflexivity.
Defined.

(** C1: for every decodable input image that has a pixel of non-zero alpha
    (after the conversion to RGBA), the run on a writable output path and a
    healthy device returns True, and the file written is the PNG encoding
    of an RGBA image of exactly 1024x1024 pixels. *)
Theorem C1_output_1024_rgba_png (resample : kernels) (w : World)
    (inp out : string) (fmt : format) (img : Image) (x y : Z) :
  fs w !! inp = Some (ImageFile fmt img) ->
  inp ∉ unreadable w ->
  alpha_content (to_rgba img) x y ->
  out ∉ unwritable w ->
  write_fault w = false ->
  exists w' final,
    fix_icon_padding resample inp out w = (w', Ret true)
    /\ fs w' !! out = Some (ImageFile PNG final)
    /\ im_mode final = Mode_RGBA /\ im_width final = 1024 /\ im_height final = 1024.
Proof.
  intros Hf Hr (Hx & Hy & Ha) Hw Hfault.
  destruct (getbbox (to_rgba img)) as [bx|] eqn:Hbb.
  - exists (world_after_success w out (padded resample (to_rgba img) bx) bx 51),
           (padded resample (to_rgba img) bx).
    split.
    + apply (fix_icon_padding_content resample w inp out fmt img bx); assumption.
    + split_and!; try reflexivity.
      unfold world_after_success. cbn [fs]. apply lookup_insert_eq.
  - exfalso. apply Ha.
    apply (getbbox_none_iff (to_rgba img) (to_rgba_mode img)); assumption.
Qed.

Lemma C1_witness :
  exists w' final,
    fix_icon_padding nearest_resample input_file output_file
      (world_with input_file (ImageFile PNG one_pixel)) = (w', Ret true)
    /\ fs w' !! output_file = Some (ImageFile PNG final)
    /\ im_mode final = Mode_RGBA /\ im_width final = 1024 /\ im_height final = 1024.
Proof.
  apply (C1_output_1024_rgba_png nearest_resample
           (world_with input_file (ImageFile PNG one_pixel))
           input_file output_file PNG one_pixel 0 0).
  - apply world_with_lookup.
  - apply world_with_readable.
  - unfold alpha_content. cbn. split_and!; first [lia | discriminate].
  - apply world_with_writable.
  - reflexivity.
Defined.

(** C3: the box computed in step 2 is within the image and is the least
    rectangle that holds every pixel of non-zero alpha; no box is found
    exactly when every pixel has alpha zero, and then the run prints the
    no-content message, returns False and leaves the file system as it
    was. *)
Theorem C3_bbox_minimal_or_no_content (resample : kernels) (w : World)
    (inp out : string) (fmt : format) (img : Image) :
  fs w !! inp = Some (ImageFile fmt img) ->
  inp ∉ unreadable w ->
  let rgba := to_rgba img in
  (getbbox rgba = None <-> fully_transparent rgba)
  /\ match getbbox rgba with
     | Some bx =>
         within rgba (im_height rgba) bx /\ minimal_alpha_box rgba bx
     | None =>
         exists w', fix_icon_padding resample inp out w = (w', Ret false)
           /\ fs w' = fs w
           /\ stdout w' = stdout w ++ [MsgNoContent]
           /\ (inp = input_file -> out = output_file -> main resample w = (w', 1))
     end.
Proof.
  intros Hf Hr rgba. split.
  - apply getbbox_none_iff, to_rgba_mode.
  - destruct (getbbox rgba) as [bx|] eqn:Hbb.
    + apply getbbox_minimal_alpha; [apply to_rgba_mode | assumption].
    + pose proof (fix_icon_padding_no_content resample w inp out fmt img Hf Hr Hbb)
        as Hrun.
      eexists. split; [exact Hrun|]. split_and!; try reflexivity.
      intros -> ->. unfold main. rewrite Hrun. reflexivity.
Qed.

Lemma C3_witness :
  getbbox transparent_100 = None
  /\ exists w',
       fix_icon_padding nearest_resample input_file output_file
         (world_with input_file (ImageFile PNG transparent_100)) = (w', Ret false)
       /\ fs w' = fs (world_with input_file (ImageFile PNG transparent_100))
       /\ stdout w' = [MsgNoContent]
       /\ main nearest_resample (world_with input_file (ImageFile PNG transparent_100))
          = (w', 1).
Proof.
  pose proof (C3_bbox_minimal_or_no_content nearest_resample
                (world_with input_file (ImageFile PNG transparent_100))
                input_file output_file PNG transparent_100
                (world_with_lookup _ _) (world_with_readable _ _ _)) as H.
  cbv zeta in H. destruct H as [Hiff Hrun].
  assert (Hnone : getbbox (to_rgba transparent_100) = None).
  { apply Hiff. intros x y _ _. reflexivity. }
  rewrite Hnone in Hrun. destruct Hrun as (w' & Hfix & Hfs & Hout & Hmain).
  split; [exact Hnone|]. exists w'.
  split_and!; [exact Hfix | exact Hfs | exact Hout | exact (Hmain eq_refl eq_refl)].
Defined.

(** C9: when the decoded image has at least one pixel and neither an
    alpha band nor transparency information, the conversion to RGBA gives
    every pixel alpha 255, the bounding box is the whole image, and the
    run never returns False: it ends in True whenever the output can be
    written. *)
Theorem C9_opaque_modes_always_have_content (resample : kernels) (w : World)
    (inp out : string) (fmt : format) (img : Image) :
  fs w !! inp = Some (ImageFile fmt img) ->
  inp ∉ unreadable w ->
  has_transparency_data img = false ->
  0 < im_width img -> 0 < im_height img ->
  (forall x y, alpha (im_data (to_rgba img) x y) = 255)
  /\ getbbox (to_rgba img) = Some (0, 0, im_width img, im_height img)
  /\ snd (fix_icon_padding resample inp out w) <> Ret false
  /\ (out ∉ unwritable w -> write_fault w = false ->
      snd (fix_icon_padding resample inp out w) = Ret true).
Proof.
  intros Hf Hr Hnt Hw Hh.
  assert (Hal : forall x y, alpha (im_data (to_rgba img) x y) = 255).
  { intros x y. unfold has_transparency_data in Hnt.
    unfold to_rgba, convert_RGBA, convert_pixel.
    destruct (im_mode img); try discriminate;
      destruct (im_transparency img); try discriminate; reflexivity. }
  assert (Hbb : getbbox (to_rgba img) = Some (0, 0, im_width img, im_height img)).
  { apply getbbox_rect.
    - unfold within. rewrite to_rgba_width, to_rgba_height. lia.
    - intros x y Hx Hy. rewrite has_content_rgba by apply to_rgba_mode.
      rewrite Hal. rewrite to_rgba_width in Hx. rewrite to_rgba_height in Hy.
      symmetry. apply in_box_true. lia. }
  split; [assumption|]. split; [assumption|].
  pose proof (fix_icon_padding_cases resample inp out w) as Hcases.
  split.
  - intros Hfalse.
    unfold fix_icon_padding, bind, Image_open in Hfalse. rewrite Hf in Hfalse.
    destruct (decide (inp ∈ unreadable w)) as [?|_]; [contradiction|].
    rewrite Hbb in Hfalse. unfold lift in Hfalse.
    destruct (crop (to_rgba img) _); [|discriminate].
    destruct (pad_content resample a) as [[final mrg]|]; [|discriminate].
    unfold save in Hfalse.
    destruct (decide (out ∈ unwritable w)); [discriminate|].
    destruct (write_fault w); discriminate.
  - intros Hwr Hfault.
    rewrite (fix_icon_padding_content resample w inp out fmt img _ Hf Hr Hbb Hwr Hfault).
    reflexivity.
Qed.

Lemma C9_witness :
  (forall x y, alpha (im_data (to_rgba black_rgb_4) x y) = 255)
  /\ getbbox (to_rgba black_rgb_4) = Some (0, 0, 4, 4)
  /\ snd (fix_icon_padding nearest_resample input_file output_file
            (world_with input_file (ImageFile PNG black_rgb_4))) <> Ret false
  /\ (output_file ∉ unwritable (world_with input_file (ImageFile PNG black_rgb_4)) ->
      write_fault (world_with input_file (ImageFile PNG black_rgb_4)) = false ->
      snd (fix_icon_padding nearest_resample input_file output_file
             (world_with input_file (ImageFile PNG black_rgb_4))) = Ret true).
Proof.
  apply (C9_opaque_modes_always_have_content nearest_resample
           (world_with input_file (ImageFile PNG black_rgb_4))
           input_file output_file PNG black_rgb_4).
  - apply world_with_lookup.
  - apply world_with_readable.
  - reflexivity.
  - cbn. lia.
  - cbn. lia.
Defined.

(** C6: on the 512x512 image whose opaque content fills the box
    (100, 100, 400, 400): the bounding box is that box, the crop is
    300x300 and holds the opaque colour everywhere, the resized content
    is the 921x921 image the LANCZOS kernel computes from it, it is
    pasted at (51, 51) onto a fresh transparent 1024x1024 canvas (pixel
    (x, y) of the square is the resized pixel (x - 51, y - 51) composited
    by its alpha, everything else is transparent), and the run saves that
    image as PNG and reports the box and the margin.  When the kernel
    maps the solid crop to the solid colour, the written image is that
    colour on the whole square. *)
Theorem C6_scenario_512 (resample : kernels) (r g b : Z) :
  let img := scenario_image r g b in
  let w := world_with input_file (ImageFile PNG img) in
  let cropped := crop_region img (100, 100, 400, 400) in
  let resized := resize resample cropped (921, 921) LANCZOS in
  let final := paste_region canvas resized (51, 51) resized in
  getbbox (to_rgba img) = Some (100, 100, 400, 400)
  /\ crop (to_rgba img) (100, 100, 400, 400) = Ret cropped
  /\ (im_width cropped = 300 /\ im_height cropped = 300)
  /\ (im_width resized = 921 /\ im_height resized = 921)
  /\ pad_content resample cropped = Ret (final, 51)
  /\ (im_width canvas = 1024 /\ im_height canvas = 1024
      /\ forall x y, im_data canvas x y = Pixel 0 0 0 0)
  /\ (exists w',
       fix_icon_padding resample input_file output_file w = (w', Ret true)
       /\ fs w' !! output_file = Some (ImageFile PNG final)
       /\ stdout w' = [MsgIconFixed output_file; MsgBBox (100, 100, 400, 400);
                       MsgNewSize 1024 51])
  /\ (forall u v, 0 <= u < 300 -> 0 <= v < 300 -> im_data cropped u v = Pixel r g b 255)
  /\ im_data resized = resample LANCZOS cropped 921 921
  /\ (forall x y,
        im_data final x y =
        if in_box (51, 51, 972, 972) x y
        then pasted_pixel_of (resample LANCZOS cropped 921 921 (x - 51) (y - 51))
        else Pixel 0 0 0 0)
  /\ ((forall u v, 0 <= u < 921 -> 0 <= v < 921 ->
         resample LANCZOS cropped 921 921 u v = Pixel r g b 255) ->
      is_byte r -> is_byte g -> is_byte b ->
      (forall x y, in_box (51, 51, 972, 972) x y = true ->
         im_data final x y = Pixel r g b 255)
      /\ getbbox final = Some (51, 51, 972, 972)).
Proof.
  intros img w cropped resized final.
  assert (Hbb : getbbox (to_rgba img) = Some (100, 100, 400, 400)).
  { change (to_rgba img) with img. apply getbbox_rect.
    - unfold within. cbn. lia.
    - intros x y _ _. unfold has_content_at, img, scenario_image.
      cbn [im_mode im_data]. destruct (in_box _ x y); reflexivity. }
  assert (Hpix : forall x y,
            im_data final x y =
            if in_box (51, 51, 972, 972) x y
            then pasted_pixel_of (resample LANCZOS cropped 921 921 (x - 51) (y - 51))
            else Pixel 0 0 0 0).
  { intros x y. unfold final.
    rewrite padded_pixel; [reflexivity | reflexivity | apply resize_width | apply resize_height]. }
  split; [exact Hbb|]. split; [reflexivity|]. split; [split; reflexivity|].
  split; [split; [apply resize_width | apply resize_height]|].
  split; [apply pad_content_eq; reflexivity|].
  split; [split_and!; reflexivity|].
  split.
  { exists (world_after_success w output_file (padded resample (to_rgba img) (100, 100, 400, 400))
              (100, 100, 400, 400) 51).
    split; [|split].
    - apply (fix_icon_padding_content resample w _ _ PNG img); try assumption.
      + apply world_with_lookup.
      + apply world_with_readable.
      + apply world_with_writable.
      + reflexivity.
    - unfold world_after_success. cbn [fs]. rewrite lookup_insert_eq. reflexivity.
    - reflexivity. }
  split.
  { intros u v Hu Hv. unfold cropped, img, scenario_image.
    cbn [crop_region im_data].
    assert (H1 : in_bounds (scenario_image r g b) (u + 100) (v + 100) = true).
    { unfold in_bounds, scenario_image. cbn [im_width im_height].
      rewrite !andb_true_iff, !Z.leb_le, !Z.ltb_lt. lia. }
    assert (H2 : in_box (100, 100, 400, 400) (u + 100) (v + 100) = true)
      by (apply in_box_true; lia).
    unfold scenario_image in H1. rewrite H1, H2. reflexivity. }
  split; [reflexivity|]. split; [exact Hpix|].
  intros Hsolid Hr Hg Hb.
  assert (Hin : forall x y, in_box (51, 51, 972, 972) x y = true ->
            im_data final x y = Pixel r g b 255).
  { intros x y Hbox. rewrite Hpix, Hbox.
    pose proof Hbox as Hc. apply in_box_true in Hc.
    change (51 <= x < 972 /\ 51 <= y < 972) in Hc.
    rewrite Hsolid; [| clear - Hc; lia | clear - Hc; lia].
    apply pasted_pixel_opaque; [|reflexivity].
    unfold byte_pixel, is_byte in *. cbn [red green blue alpha].
    clear - Hr Hg Hb. lia. }
  split; [exact Hin|].
  apply getbbox_rect.
  - unfold within, final, paste_region, canvas, Image_new, target_size. cbn. lia.
  - intros x y _ _. rewrite has_content_rgba by reflexivity.
    destruct (in_box (51, 51, 972, 972) x y) eqn:Hbox.
    + rewrite (Hin x y Hbox). reflexivity.
    + rewrite Hpix, Hbox. reflexivity.
Qed.

(** Under the nearest-neighbour kernel the scenario, in colour
    (10, 20, 30), writes that colour on the whole square. *)
Lemma C6_witness :
  let final := paste_region canvas
                 (resize nearest_resample
                    (crop_region (scenario_image 10 20 30) (100, 100, 400, 400))
                    (921, 921) LANCZOS) (51, 51)
                 (resize nearest_resample
                    (crop_region (scenario_image 10 20 30) (100, 100, 400, 400))
                    (921, 921) LANCZOS) in
  (forall x y, in_box (51, 51, 972, 972) x y = true ->
     im_data final x y = Pixel 10 20 30 255)
  /\ getbbox final = Some (51, 51, 972, 972).
Proof.
  destruct (C6_scenario_512 nearest_resample 10 20 30)
    as (_ & _ & _ & _ & _ & _ & _ & Hcrop & _ & _ & Hsolid).
  apply Hsolid; try (unfold is_byte; lia).
  intros u v Hu Hv. unfold nearest_resample. apply Hcrop.
  - change (im_width (crop_region (scenario_image 10 20 30) (100, 100, 400, 400)))
      with 300.
    split; [apply Z.div_pos; lia|]. apply Z.div_lt_upper_bound; lia.
  - change (im_height (crop_region (scenario_image 10 20 30) (100, 100, 400, 400)))
      with 300.
    split; [apply Z.div_pos; lia|]. apply Z.div_lt_upper_bound; lia.
Defined.

(** Had the content reached column and row 400 as well, the box would be
    (100, 100, 401, 401) and the crop 301x301. *)
Lemma scenario_inclusive_bbox (r g b : Z) :
  getbbox (scenario_image_inclusive r g b) = Some (100, 100, 401, 401).
Proof.
  apply getbbox_rect.
  - unfold within. cbn. lia.
  - intros x y _ _. unfold has_content_at, scenario_image_inclusive.
    cbn [im_mode im_data]. destruct (in_box _ x y); reflexivity.
Qed.

(** C2, as the code has it: on every successful run the resized content,
    a square of side 921 = floor(1024 * 0.90), occupies exactly the
    square (51, 51, 972, 972) of the 1024x1024 image written: each pixel
    of the square is the content's pixel composited by its own alpha (an
    opaque pixel is copied unchanged, and the result is visible exactly
    where the content's alpha is at least 12), and every pixel outside is
    fully transparent.  So the content box of the output lies within the
    square, and is the whole square exactly when each edge of the resized
    content has a pixel of alpha at least 12.  The square leaves 51
    pixels on the left and on top, and 52 on the right and at the
    bottom. *)
Theorem C2_pasted_square_and_margins (resample : kernels) (w : World)
    (inp out : string) (fmt : format) (img : Image) (bx : box) :
  fs w !! inp = Some (ImageFile fmt img) ->
  inp ∉ unreadable w ->
  getbbox (to_rgba img) = Some bx ->
  out ∉ unwritable w ->
  write_fault w = false ->
  byte_image (to_rgba img) ->
  kernel_yields_bytes resample ->
  let resized := resize resample (crop_region (to_rgba img) bx) (921, 921) LANCZOS in
  exists w' final,
    fix_icon_padding resample inp out w = (w', Ret true)
    /\ fs w' !! out = Some (ImageFile PNG final)
    /\ (im_width resized = 921 /\ im_height resized = 921)
    /\ (forall x y, in_box content_box x y = true ->
          let s := im_data resized (x - 51) (y - 51) in
          im_data final x y = pasted_pixel_of s
          /\ (alpha s = 255 -> im_data final x y = s)
          /\ (alpha (im_data final x y) <> 0 <-> 12 <= alpha s))
    /\ transparent_outside final content_box
    /\ (forall obx, getbbox final = Some obx -> box_le obx content_box)
    /\ (getbbox final = Some content_box <-> edges_visible resized)
    /\ paste_box (margin 921, margin 921) 921 921 = content_box
    /\ margins_of target_size content_box = (51, 51, 52, 52).
Proof.
  intros Hf Hr Hbb Hw Hfault Hbytes Hker resized.
  assert (Hrb : forall u v, 0 <= u < 921 -> 0 <= v < 921 ->
            byte_pixel (im_data resized u v)).
  { intros u v Hu Hv. apply run_resized_bytes; assumption. }
  exists (world_after_success w out (padded resample (to_rgba img) bx) bx 51),
         (padded resample (to_rgba img) bx).
  split; [apply (fix_icon_padding_content resample w inp out fmt img bx); assumption|].
  split; [unfold world_after_success; cbn [fs]; apply lookup_insert_eq|].
  split; [split; [apply resize_width | apply resize_height]|].
  split.
  { intros x y Hbox. cbv zeta.
    rewrite padded_resized_pixel by apply to_rgba_mode. rewrite Hbox. fold resized.
    cbv zeta. rewrite blend_onto_transparent.
    apply in_box_true in Hbox. unfold content_box in Hbox.
    pose proof (Hrb (x - 51) (y - 51) ltac:(lia) ltac:(lia)) as Hs.
    split; [reflexivity|]. split.
    - apply pasted_pixel_opaque. assumption.
    - apply pasted_pixel_visible. apply Hs. }
  split; [intros x y Hout; apply padded_outside; assumption|].
  split.
  { intros obx Hobx.
    destruct (getbbox_minimal_alpha _ _ (padded_mode resample _ _) Hobx) as (_ & _ & Hmin).
    apply Hmin. intros x y (_ & _ & Ha).
    destruct (in_box content_box x y) eqn:Hbox; [reflexivity|].
    exfalso. apply Ha. rewrite padded_outside by assumption. reflexivity. }
  split; [|split; reflexivity].
  apply padded_bbox_full_iff; [apply to_rgba_mode|].
  intros u v Hu Hv. apply (Hrb u v Hu Hv).
Qed.

Lemma C2_witness :
  exists w' final,
    fix_icon_padding nearest_resample input_file output_file
      (world_with input_file (ImageFile PNG one_pixel)) = (w', Ret true)
    /\ fs w' !! output_file = Some (ImageFile PNG final)
    /\ im_data final 51 51 = opaque_red
    /\ im_data final 971 971 = opaque_red
    /\ transparent_outside final content_box
    /\ getbbox final = Some content_box
    /\ margins_of target_size content_box = (51, 51, 52, 52).
Proof.
  destruct (C2_pasted_square_and_margins nearest_resample
              (world_with input_file (ImageFile PNG one_pixel))
              input_file output_file PNG one_pixel (0, 0, 1, 1))
    as (w' & final & Hrun & Hfs & _ & Hpix & Hout & _ & Hiff & _ & Hmar).
  - apply world_with_lookup.
  - apply world_with_readable.
  - vm_compute. reflexivity.
  - apply world_with_writable.
  - reflexivity.
  - intros x y _ _. vm_compute. intuition discriminate.
  - exact nearest_yields_bytes.
  - exists w', final. split_and!; try assumption.
    + apply (Hpix 51 51 eq_refl). reflexivity.
    + apply (Hpix 971 971 eq_refl). reflexivity.
    + apply Hiff. unfold edges_visible.
      split_and!; exists 0; (split; [lia | vm_compute; discriminate]).
Defined.

(** C2 does not hold as stated.  An opaque 921x921 square (a square crop)
    comes out with content box (51, 51, 972, 972), whose margins are 51
    on the left and top but 52 on the right and bottom.  A faint 921x921
    square (alpha 5) comes out fully transparent: the output has no
    content box at all. *)
Lemma C2_counterexample :
  (exists w' final,
     fix_icon_padding nearest_resample input_file output_file
       (world_with input_file (ImageFile PNG (solid_921 opaque_red))) = (w', Ret true)
     /\ fs w' !! output_file = Some (ImageFile PNG final)
     /\ getbbox final = Some content_box
     /\ margins_of target_size content_box = (51, 51, 52, 52)
     /\ ~ centered_with_equal_margins final)
  /\ (exists w' final,
        fix_icon_padding nearest_resample input_file output_file
          (world_with input_file (ImageFile PNG (solid_921 faint_pixel))) = (w', Ret true)
        /\ fs w' !! output_file = Some (ImageFile PNG final)
        /\ getbbox final = None
        /\ ~ centered_with_equal_margins final).
Proof.
  split.
  - set (w := world_with input_file (ImageFile PNG (solid_921 opaque_red))).
    set (final := padded nearest_resample (solid_921 opaque_red) (0, 0, 921, 921)).
    assert (Hbb : getbbox final = Some content_box).
    { apply padded_solid_bbox. vm_compute. discriminate. }
    exists (world_after_success w output_file final (0, 0, 921, 921) 51), final.
    split; [|split; [|split; [exact Hbb|split; [reflexivity|]]]].
    + apply (fix_icon_padding_content nearest_resample w _ _ PNG (solid_921 opaque_red)).
      * apply world_with_lookup.
      * apply world_with_readable.
      * apply solid_bbox. vm_compute. discriminate.
      * apply world_with_writable.
      * reflexivity.
    + unfold world_after_success. cbn [fs]. apply lookup_insert_eq.
    + intros (bx & Hbx & _ & Heq). rewrite Hbb in Hbx. injection Hbx as <-.
      unfold equal_margins, margins_of, content_box, target_size in Heq. lia.
  - set (w := world_with input_file (ImageFile PNG (solid_921 faint_pixel))).
    set (final := padded nearest_resample (solid_921 faint_pixel) (0, 0, 921, 921)).
    assert (Hbb : getbbox final = None).
    { apply (getbbox_none_iff final (padded_mode nearest_resample _ _)).
      intros x y _ _. unfold final. rewrite padded_solid_pixel.
      destruct (in_box content_box x y); reflexivity. }
    exists (world_after_success w output_file final (0, 0, 921, 921) 51), final.
    split; [|split; [|split; [exact Hbb|]]].
    + apply (fix_icon_padding_content nearest_resample w _ _ PNG (solid_921 faint_pixel)).
      * apply world_with_lookup.
      * apply world_with_readable.
      * apply solid_bbox. vm_compute. discriminate.
      * apply world_with_writable.
      * reflexivity.
    + unfold world_after_success. cbn [fs]. apply lookup_insert_eq.
    + intros (bx & Hbx & _). rewrite Hbb in Hbx. discriminate.
Qed.



(** C8: the script is not idempotent.  Run in place on a half-transparent
    921x921 square, it succeeds; the second run finds the box
    (51, 51, 972, 972), that is it crops the margin of the first run away
    before padding again, succeeds too, and writes a different image: the
    pixel at (51, 51) has alpha 64 after the first run and 16 after the
    second. *)
Theorem C8_second_run_differs (resample : kernels) :
  exists img : Image,
    getbbox (to_rgba img) = Some (0, 0, 921, 921)
    /\ exists w1 w2 out1 out2,
         main resample (world_with input_file (ImageFile PNG img)) = (w1, 0)
         /\ fs w1 !! output_file = Some (ImageFile PNG out1)
         /\ getbbox (to_rgba out1) = Some content_box
         /\ main resample w1 = (w2, 0)
         /\ fs w2 !! output_file = Some (ImageFile PNG out2)
         /\ im_data out1 51 51 = Pixel 0 0 0 64
         /\ im_data out2 51 51 = Pixel 0 0 0 16
         /\ exists x y, in_bounds out1 x y = true /\ in_bounds out2 x y = true
                        /\ im_data out1 x y <> im_data out2 x y.
Proof.
  set (img := solid_921 half_black).
  set (w0 := world_with input_file (ImageFile PNG img)).
  set (out1 := padded resample img (0, 0, 921, 921)).
  set (w1 := world_after_success w0 output_file out1 (0, 0, 921, 921) 51).
  set (out2 := padded resample out1 content_box).
  set (w2 := world_after_success w1 output_file out2 content_box 51).
  assert (Hbb0 : getbbox (to_rgba img) = Some (0, 0, 921, 921)).
  { apply solid_bbox. vm_compute. discriminate. }
  assert (Hbb1 : getbbox (to_rgba out1) = Some content_box).
  { apply padded_solid_bbox. vm_compute. discriminate. }
  assert (Hp1 : im_data out1 51 51 = Pixel 0 0 0 64).
  { unfold out1, img. rewrite padded_solid_pixel. reflexivity. }
  assert (Hp2 : im_data out2 51 51 = Pixel 0 0 0 16).
  { unfold out2, out1, img. rewrite repadded_solid_pixel. reflexivity. }
  assert (Hl1 : fs w1 !! output_file = Some (ImageFile PNG out1)).
  { unfold w1, world_after_success. cbn [fs]. apply lookup_insert_eq. }
  exists img. split; [exact Hbb0|]. exists w1, w2, out1, out2.
  split_and!; try assumption.
  - apply (main_content resample w0 PNG img); try assumption.
    + apply world_with_lookup.
    + apply world_with_readable.
    + apply world_with_writable.
    + reflexivity.
  - apply (main_content resample w1 PNG out1); try assumption.
    + apply not_elem_of_empty.
    + apply not_elem_of_empty.
    + reflexivity.
  - unfold w2, world_after_success. cbn [fs]. apply lookup_insert_eq.
  - exists 51, 51. split_and!; try reflexivity.
    rewrite Hp1, Hp2. discriminate.
Qed.


(** * Further properties *)

(** ** Results, exceptions, files and console *)



(** X2: what the return value tells.  A run returns True exactly when the
    input decodes, has a pixel of non-zero alpha after the conversion to
    RGBA, the output path can be opened for writing and the device does
    not fail; it returns False exactly when the input decodes and is
    fully transparent. *)
Theorem X2_return_value (resample : kernels) (inp out : string) (w : World) :
  (snd (fix_icon_padding resample inp out w) = Ret true
   <-> exists fmt img,
         fs w !! inp = Some (ImageFile fmt img) /\ (inp ∉ unreadable w)
         /\ ~ fully_transparent (to_rgba img)
         /\ (out ∉ unwritable w) /\ write_fault w = false)
  /\ (snd (fix_icon_padding resample inp out w) = Ret false
      <-> exists fmt img,
            fs w !! inp = Some (ImageFile fmt img) /\ (inp ∉ unreadable w)
            /\ fully_transparent (to_rgba img)).
Proof.
  pose proof (fix_icon_padding_inv resample inp out w) as H.
  split; split.
  - intros Hr. destruct (fix_icon_padding resample inp out w) as [w' r].
    cbn [snd] in Hr. subst r.
    destruct H as (_ & fmt & img & bx & Hf & Hrd & Hbb & Hwr & Hfault & _).
    exists fmt, img. split_and!; try assumption.
    intros Hft. apply (getbbox_none_iff _ (to_rgba_mode img)) in Hft. congruence.
  - intros (fmt & img & Hf & Hrd & Hnt & Hwr & Hfault).
    destruct (getbbox (to_rgba img)) as [bx|] eqn:Hbb.
    + rewrite (fix_icon_padding_content resample w inp out fmt img bx); auto.
    + exfalso. apply Hnt. apply (getbbox_none_iff _ (to_rgba_mode img)). assumption.
  - intros Hr. destruct (fix_icon_padding resample inp out w) as [w' r].
    cbn [snd] in Hr. subst r.
    destruct H as (_ & fmt & img & Hf & Hrd & Hbb & _).
    exists fmt, img. split_and!; try assumption.
    apply (getbbox_none_iff _ (to_rgba_mode img)). assumption.
  - intros (fmt & img & Hf & Hrd & Hft).
    apply (getbbox_none_iff _ (to_rgba_mode img)) in Hft.
    rewrite (fix_icon_padding_no_content resample w inp out fmt img); auto.
Qed.


(** X4: what a run prints.  The console only grows.  A run that returns
    True prints, after the save, the three lines of lines 44-46 with the
    bounding box of the input (not of the output) and the margin 51; a
    run that returns False prints the no-content line; a run that raises
    prints nothing itself, and [main] then prints the one error line.
    [main] exits with 0 exactly when the run returned True. *)
Theorem X4_console_output (resample : kernels) (inp out : string) (w : World) :
  (let '(w', r) := fix_icon_padding resample inp out w in
   exists bx, stdout w' = stdout w ++ printed out bx r
     /\ (r = Ret true ->
         exists fmt img, fs w !! inp = Some (ImageFile fmt img)
                         /\ getbbox (to_rgba img) = Some bx))
  /\ (let r := snd (fix_icon_padding resample input_file output_file w) in
      let '(w', code) := main resample w in
      (exists bx, stdout w' = stdout w ++ printed output_file bx r
                    ++ match r with Raise e => [MsgError e] | Ret _ => [] end)
      /\ (code = 0 <-> r = Ret true) /\ (code = 1 <-> r <> Ret true)).
Proof.
  split.
  - pose proof (fix_icon_padding_inv resample inp out w) as H.
    destruct (fix_icon_padding resample inp out w) as [w' r].
    destruct H as (_ & H). destruct r as [[|]|e].
    + destruct H as (fmt & img & bx & Hf & _ & Hbb & _ & _ & ->).
      exists bx. split; [reflexivity|]. intros _. eauto.
    + destruct H as (fmt & img & _ & _ & _ & ->).
      exists (0, 0, 0, 0). split; [reflexivity|]. discriminate.
    + destruct H as (Hout & _). exists (0, 0, 0, 0). cbn [printed].
      rewrite app_nil_r. split; [assumption|]. discriminate.
  - pose proof (fix_icon_padding_inv resample input_file output_file w) as H.
    unfold main.
    destruct (fix_icon_padding resample input_file output_file w) as [w' r].
    cbn [snd]. destruct H as (_ & H). destruct r as [[|]|e].
    + destruct H as (fmt & img & bx & _ & _ & _ & _ & _ & ->).
      split; [exists bx; cbn; rewrite ?app_nil_r; reflexivity|].
      split; split; congruence.
    + destruct H as (fmt & img & _ & _ & _ & ->).
      split; [exists (0, 0, 0, 0); reflexivity|].
      split; split; (discriminate || reflexivity || congruence).
    + destruct H as (Hout & _).
      split; [exists (0, 0, 0, 0); cbn; rewrite Hout; reflexivity|].
      split; split; (discriminate || reflexivity || congruence).
Qed.

Lemma open_failure_run (resample : kernels) (inp out : string) (w : World) (e : exn) :
  open_failure w inp = Some e ->
  fix_icon_padding resample inp out w = (w, Raise e).
Proof.
  unfold open_failure, fix_icon_padding, bind, Image_open.
  destruct (fs w !! inp) as [f|]; [|congruence].
  destruct (decide (inp ∈ unreadable w)); [congruence|].
  destruct f as [? ?|[|]|?]; congruence.
Qed.

(** X5: an icon that cannot be opened.  When the icon file is missing
    (FileNotFoundError), not readable (PermissionError), not an image or
    a stream cut in its header (UnidentifiedImageError), or a stream cut
    in its pixel data (OSError), [main] exits with code 1 after printing
    exactly one error line that names the exception, and the file system
    is unchanged. *)
Theorem X5_main_on_unopenable_icon (resample : kernels) (w : World) (e : exn) :
  open_failure w input_file = Some e ->
  exists w',
    main resample w = (w', 1) /\ fs w' = fs w
    /\ stdout w' = stdout w ++ [MsgError e].
Proof.
  intros Ho. unfold main.
  rewrite (open_failure_run resample _ _ _ _ Ho).
  eexists. split; [reflexivity|]. split; reflexivity.
Qed.

Lemma X5_witness :
  exists w',
    main nearest_resample empty_world = (w', 1) /\ fs w' = fs empty_world
    /\ stdout w' = stdout empty_world ++ [MsgError FileNotFoundError].
Proof.
  apply (X5_main_on_unopenable_icon nearest_resample empty_world FileNotFoundError).
  reflexivity.
Defined.

(** ** Cropping to content and transparent surroundings *)

(** X7: the crop to the bounding box is tight.  For every image with
    content the crop succeeds, has the size of the box, and its own
    bounding box is the whole crop: no empty border row or column
    survives lines 21-25. *)
Theorem X7_crop_to_content_is_tight (im : Image) (l t r b : Z) :
  getbbox im = Some (l, t, r, b) ->
  crop im (l, t, r, b) = Ret (crop_region im (l, t, r, b))
  /\ im_width (crop_region im (l, t, r, b)) = r - l
  /\ im_height (crop_region im (l, t, r, b)) = b - t
  /\ getbbox (crop_region im (l, t, r, b)) = Some (0, 0, r - l, b - t).
Proof.
  intros Hbb. pose proof (getbbox_spec im) as Hs. rewrite Hbb in Hs.
  destruct Hs as (Hin & Hen & Hto).
  split; [apply crop_within; assumption|]. split; [reflexivity|].
  split; [reflexivity|]. unfold within in Hin.
  assert (Hc : forall x y, 0 <= x < r - l -> 0 <= y < b - t ->
            has_content_at (crop_region im (l, t, r, b)) x y
            = has_content_at im (x + l) (y + t)).
  { intros x y Hx Hy. apply has_content_crop; lia. }
  destruct Hto as ((x1 & Hx1 & Hc1) & (x2 & Hx2 & Hc2)
                   & (y3 & Hy3 & Hc3) & (y4 & Hy4 & Hc4)).
  pose proof (Hen x1 t Hx1 ltac:(lia) Hc1) as H1.
  pose proof (Hen x2 (b - 1) Hx2 ltac:(lia) Hc2) as H2.
  pose proof (Hen l y3 ltac:(lia) Hy3 Hc3) as H3.
  pose proof (Hen (r - 1) y4 ltac:(lia) Hy4 Hc4) as H4.
  apply getbbox_unique.
  - unfold within. cbn [crop_region im_width im_height]. lia.
  - intros x y Hx Hy _. cbn [crop_region im_width im_height] in Hx, Hy. lia.
  - unfold touches. cbn [crop_region im_width im_height]. split_and!.
    + exists (x1 - l). split; [lia|]. rewrite Hc by lia.
      replace (x1 - l + l) with x1 by lia. exact Hc1.
    + exists (x2 - l). split; [lia|]. rewrite Hc by lia.
      replace (x2 - l + l) with x2 by lia.
      replace (b - t - 1 + t) with (b - 1) by lia. exact Hc2.
    + exists (y3 - t). split; [lia|]. rewrite Hc by lia.
      replace (y3 - t + t) with y3 by lia. exact Hc3.
    + exists (y4 - t). split; [lia|]. rewrite Hc by lia.
      replace (y4 - t + t) with y4 by lia.
      replace (r - l - 1 + l) with (r - 1) by lia. exact Hc4.
Qed.

Lemma X7_witness :
  crop framed_two_by_two (2, 1, 4, 3) = Ret (crop_region framed_two_by_two (2, 1, 4, 3))
  /\ im_width (crop_region framed_two_by_two (2, 1, 4, 3)) = 4 - 2
  /\ im_height (crop_region framed_two_by_two (2, 1, 4, 3)) = 3 - 1
  /\ getbbox (crop_region framed_two_by_two (2, 1, 4, 3)) = Some (0, 0, 4 - 2, 3 - 1).
Proof.
  apply (X7_crop_to_content_is_tight framed_two_by_two 2 1 4 3).
  vm_compute. reflexivity.
Defined.

Lemma two_by_two_framed : transparent_frame two_by_two framed_two_by_two 2 1.
Proof.
  unfold transparent_frame. split_and!; try reflexivity; try (cbn; lia).
  intros x y _ _. unfold two_by_two, framed_two_by_two. cbn [im_width im_height im_data].
  change (2 + 2) with 4. change (1 + 2) with 3.
  destruct (in_box (2, 1, 4, 3) x y); reflexivity.
Qed.

(** X8: transparent surroundings are ignored.  If one RGBA input shows
    the picture of another inside a fully transparent frame, then (for a
    kernel that reads its source through its pixels) both runs succeed
    from boxes that differ by the offset of the frame, and the two images
    written are equal pixel by pixel: the excess padding is removed. *)
Theorem X8_transparent_frame_is_ignored (resample : kernels) (w1 w2 : World)
    (inp out : string) (f1 f2 : format) (small big : Image) (dx dy : Z) (bx : box) :
  kernel_reads_pixels resample ->
  transparent_frame small big dx dy ->
  getbbox small = Some bx ->
  fs w1 !! inp = Some (ImageFile f1 small) -> inp ∉ unreadable w1 ->
  out ∉ unwritable w1 -> write_fault w1 = false ->
  fs w2 !! inp = Some (ImageFile f2 big) -> inp ∉ unreadable w2 ->
  out ∉ unwritable w2 -> write_fault w2 = false ->
  getbbox big = Some (shift_box dx dy bx)
  /\ exists w1' w2' o1 o2,
       fix_icon_padding resample inp out w1 = (w1', Ret true)
       /\ fix_icon_padding resample inp out w2 = (w2', Ret true)
       /\ fs w1' !! out = Some (ImageFile PNG o1)
       /\ fs w2' !! out = Some (ImageFile PNG o2)
       /\ forall x y, im_data o1 x y = im_data o2 x y.
Proof.
  intros Hker Hfr Hbb Hf1 Hr1 Hw1 Hd1 Hf2 Hr2 Hw2 Hd2.
  pose proof Hfr as (Hms & Hmb & _).
  pose proof (frame_bbox small big dx dy bx Hfr Hbb) as Hbb2.
  split; [exact Hbb2|].
  pose proof (getbbox_spec small) as Hs. rewrite Hbb in Hs. destruct Hs as (Hin & _).
  exists (world_after_success w1 out (padded resample small bx) bx 51),
         (world_after_success w2 out (padded resample big (shift_box dx dy bx))
            (shift_box dx dy bx) 51),
         (padded resample small bx), (padded resample big (shift_box dx dy bx)).
  split_and!.
  - pose proof (fix_icon_padding_content resample w1 inp out f1 small bx Hf1 Hr1) as H.
    rewrite (to_rgba_of_rgba small Hms) in H. apply H; assumption.
  - pose proof (fix_icon_padding_content resample w2 inp out f2 big
                  (shift_box dx dy bx) Hf2 Hr2) as H.
    rewrite (to_rgba_of_rgba big Hmb) in H. apply H; assumption.
  - unfold world_after_success. cbn [fs]. apply lookup_insert_eq.
  - unfold world_after_success. cbn [fs]. apply lookup_insert_eq.
  - intros x y. unfold padded. destruct bx as [[[l t] r] b]. unfold within in Hin.
    apply (pasted_same_picture resample Hker).
    + rewrite crop_region_mode. assumption.
    + cbn [crop_region im_width]. lia.
    + cbn [crop_region im_height]. lia.
    + apply frame_crop_same; assumption.
Qed.

Lemma X8_witness :
  getbbox framed_two_by_two = Some (shift_box 2 1 (0, 0, 2, 2))
  /\ exists w1' w2' o1 o2,
       fix_icon_padding nearest_resample input_file output_file
         (world_with input_file (ImageFile PNG two_by_two)) = (w1', Ret true)
       /\ fix_icon_padding nearest_resample input_file output_file
            (world_with input_file (ImageFile BMP framed_two_by_two)) = (w2', Ret true)
       /\ fs w1' !! output_file = Some (ImageFile PNG o1)
       /\ fs w2' !! output_file = Some (ImageFile PNG o2)
       /\ forall x y, im_data o1 x y = im_data o2 x y.
Proof.
  apply (X8_transparent_frame_is_ignored nearest_resample
           (world_with input_file (ImageFile PNG two_by_two))
           (world_with input_file (ImageFile BMP framed_two_by_two))
           input_file output_file PNG BMP two_by_two framed_two_by_two 2 1 (0, 0, 2, 2)).
  - exact nearest_reads_pixels.
  - exact two_by_two_framed.
  - vm_compute. reflexivity.
  - apply world_with_lookup.
  - apply world_with_readable.
  - apply world_with_writable.
  - reflexivity.
  - apply world_with_lookup.
  - apply world_with_readable.
  - apply world_with_writable.
  - reflexivity.
Defined.

(** ** The masked paste onto the transparent canvas *)

(** X9: what the paste of lines 36-40 does to the pixels of the image a
    run writes.  For a decoded image made of bytes (and a kernel that
    yields bytes) the written image is made of bytes again, and for each
    pixel of the pasted square: the resized content's pixel there is made
    of bytes, the alpha and the colour bands written never exceed it, an
    opaque pixel is copied unchanged, the alpha is kept only when it is 0
    or 255 (every half-transparent pixel comes out more transparent), and
    the alpha written is zero exactly when the content's alpha is at most
    11. *)
Theorem X9_pasted_pixel_law (resample : kernels) (w : World)
    (inp out : string) (fmt : format) (img : Image) (bx : box) :
  fs w !! inp = Some (ImageFile fmt img) ->
  inp ∉ unreadable w ->
  getbbox (to_rgba img) = Some bx ->
  out ∉ unwritable w ->
  write_fault w = false ->
  byte_image (to_rgba img) ->
  kernel_yields_bytes resample ->
  let resized := resize resample (crop_region (to_rgba img) bx) (921, 921) LANCZOS in
  exists w' final,
    fix_icon_padding resample inp out w = (w', Ret true)
    /\ fs w' !! out = Some (ImageFile PNG final)
    /\ byte_image final
    /\ forall x y, in_box content_box x y = true ->
         let s := im_data resized (x - 51) (y - 51) in
         let p := im_data final x y in
         byte_pixel s
         /\ (alpha p <= alpha s /\ red p <= red s /\ green p <= green s /\ blue p <= blue s)
         /\ (alpha s = 255 -> p = s)
         /\ (alpha p = alpha s <-> alpha s = 0 \/ alpha s = 255)
         /\ (alpha p = 0 <-> alpha s <= 11).
Proof.
  intros Hf Hr Hbb Hw Hfault Hbytes Hker resized.
  exists (world_after_success w out (padded resample (to_rgba img) bx) bx 51),
         (padded resample (to_rgba img) bx).
  split; [apply (fix_icon_padding_content resample w inp out fmt img bx); assumption|].
  split; [unfold world_after_success; cbn [fs]; apply lookup_insert_eq|].
  split; [apply padded_bytes; try assumption; apply to_rgba_mode|].
  intros x y Hbox. cbv zeta.
  rewrite padded_resized_pixel by apply to_rgba_mode. rewrite Hbox. fold resized.
  cbv zeta. rewrite blend_onto_transparent.
  apply in_box_true in Hbox. unfold content_box in Hbox.
  assert (Hs : byte_pixel (im_data resized (x - 51) (y - 51)))
    by (apply run_resized_bytes; try assumption; lia).
  set (s := im_data resized (x - 51) (y - 51)) in *.
  pose proof (pasted_pixel_bytes s Hs) as (_ & Hle).
  pose proof Hs as (_ & _ & _ & Ha).
  split; [exact Hs|]. split; [exact Hle|]. split; [|split].
  - apply pasted_pixel_opaque. assumption.
  - rewrite <- blend_onto_transparent. unfold blend_pixel. cbn [alpha].
    apply blend_alpha_fixed. assumption.
  - pose proof (pasted_pixel_visible s Ha) as Hvis.
    pose proof (pasted_pixel_bytes s Hs) as ((_ & _ & _ & Hpa) & _).
    unfold is_byte in Hpa, Ha. split.
    + intros Hz. destruct (Z.le_gt_cases (alpha s) 11) as [?|Hgt]; [assumption|].
      exfalso. apply (proj2 Hvis); [lia|assumption].
    + intros Hle11. destruct (Z.eq_dec (alpha (pasted_pixel_of s)) 0) as [?|Hne];
        [assumption|].
      apply (proj1 Hvis) in Hne. lia.
Qed.

Lemma X9_witness :
  exists w' final,
    fix_icon_padding nearest_resample input_file output_file
      (world_with input_file (ImageFile PNG (solid_921 half_black))) = (w', Ret true)
    /\ fs w' !! output_file = Some (ImageFile PNG final)
    /\ byte_image final
    /\ alpha (im_data final 51 51) <= 128
    /\ (alpha (im_data final 51 51) = 0 <-> 128 <= 11).
Proof.
  destruct (X9_pasted_pixel_law nearest_resample
              (world_with input_file (ImageFile PNG (solid_921 half_black)))
              input_file output_file PNG (solid_921 half_black) (0, 0, 921, 921))
    as (w' & final & Hrun & Hfs & Hbytes & Hlaw).
  - apply world_with_lookup.
  - apply world_with_readable.
  - apply solid_bbox. vm_compute. discriminate.
  - apply world_with_writable.
  - reflexivity.
  - intros x y _ _. vm_compute. intuition discriminate.
  - exact nearest_yields_bytes.
  - exists w', final. split_and!; try assumption.
    + apply (Hlaw 51 51 eq_refl).
    + apply (Hlaw 51 51 eq_refl).
Defined.

(** ** Running the script on its own output *)

Section Again.

Variable resample : kernels.

(** A second in-place run after a run that wrote [out1]. *)
Lemma main_after_success (w : World) (out1 : Image) (bx : box) :
  input_file ∉ unreadable w -> output_file ∉ unwritable w -> write_fault w = false ->
  im_mode out1 = Mode_RGBA ->
  let w1 := world_after_success w output_file out1 bx 51 in
  match getbbox out1 with
  | Some bx2 =>
      main resample w1
      = (world_after_success w1 output_file (padded resample out1 bx2) bx2 51, 0)
  | None => main resample w1 = (fst (print MsgNoContent w1), 1)
  end.
Proof.
  intros Hr Hw Hfault Hm w1.
  assert (Hf : fs w1 !! input_file = Some (ImageFile PNG out1)).
  { unfold w1, world_after_success. cbn [fs]. apply lookup_insert_eq. }
  destruct (getbbox out1) as [bx2|] eqn:Hbb.
  - pose proof (main_content resample w1 PNG out1 bx2 Hf) as H.
    rewrite (to_rgba_of_rgba out1 Hm) in H. apply H; assumption.
  - unfold main.
    rewrite (fix_icon_padding_no_content resample w1 _ _ PNG out1); try assumption.
    + reflexivity.
    + rewrite to_rgba_of_rgba; assumption.
Qed.

End Again.

(** X10: faint content vanishes.  If the resized content has no alpha
    above 11, the in-place run still succeeds (exit code 0) but the image
    it writes is fully transparent, and the next run on it finds no
    content: it prints the no-content line, exits with code 1 and leaves
    the file as it is. *)
Theorem X10_faint_content_vanishes (resample : kernels) (w : World)
    (fmt : format) (img : Image) (bx : box) :
  fs w !! input_file = Some (ImageFile fmt img) ->
  input_file ∉ unreadable w -> output_file ∉ unwritable w -> write_fault w = false ->
  getbbox (to_rgba img) = Some bx ->
  (forall u v, 0 <= u < 921 -> 0 <= v < 921 ->
     0 <= alpha (im_data (resize resample (crop_region (to_rgba img) bx)
                            (921, 921) LANCZOS) u v) <= 11) ->
  exists w1 w2 out1,
    main resample w = (w1, 0)
    /\ fs w1 !! output_file = Some (ImageFile PNG out1)
    /\ fully_transparent out1
    /\ main resample w1 = (w2, 1)
    /\ fs w2 = fs w1
    /\ stdout w2 = stdout w1 ++ [MsgNoContent].
Proof.
  intros Hf Hr Hw Hfault Hbb Hfaint.
  set (out1 := padded resample (to_rgba img) bx).
  set (w1 := world_after_success w output_file out1 bx 51).
  assert (Hft : fully_transparent out1).
  { intros x y _ _. unfold out1.
    rewrite padded_resized_pixel by apply to_rgba_mode.
    destruct (in_box content_box x y) eqn:Hbox; [|reflexivity].
    apply in_box_true in Hbox. unfold content_box in Hbox.
    cbv zeta. unfold blend_pixel. cbn [alpha]. apply blend_faint, Hfaint; lia. }
  assert (Hnone : getbbox out1 = None)
    by (apply (getbbox_none_iff out1 (padded_mode resample _ _)); exact Hft).
  pose proof (main_after_success resample w out1 bx Hr Hw Hfault
                (padded_mode resample _ _)) as H2.
  cbv zeta in H2. rewrite Hnone in H2. fold w1 in H2.
  exists w1, (fst (print MsgNoContent w1)), out1.
  split_and!; try reflexivity; try assumption.
  - apply (main_content resample w fmt img bx); assumption.
  - unfold w1, world_after_success. cbn [fs]. apply lookup_insert_eq.
Qed.

Lemma X10_witness :
  exists w1 w2 out1,
    main nearest_resample (world_with input_file (ImageFile PNG (solid_921 faint_pixel)))
    = (w1, 0)
    /\ fs w1 !! output_file = Some (ImageFile PNG out1)
    /\ fully_transparent out1
    /\ main nearest_resample w1 = (w2, 1)
    /\ fs w2 = fs w1
    /\ stdout w2 = stdout w1 ++ [MsgNoContent].
Proof.
  apply (X10_faint_content_vanishes nearest_resample
           (world_with input_file (ImageFile PNG (solid_921 faint_pixel)))
           PNG (solid_921 faint_pixel) (0, 0, 921, 921)).
  - apply world_with_lookup.
  - apply world_with_readable.
  - apply world_with_writable.
  - reflexivity.
  - apply solid_bbox. vm_compute. discriminate.
  - intros u v Hu Hv.
    change (resize nearest_resample
              (crop_region (to_rgba (solid_921 faint_pixel)) (0, 0, 921, 921))
              (921, 921) LANCZOS)
      with (crop_region (solid_921 faint_pixel) (0, 0, 921, 921)).
    cbn [crop_region im_data].
    destruct (in_bounds (solid_921 faint_pixel) (u + 0) (v + 0)); cbn; lia.
Defined.

(** X11: opaque content is a fixed point.  If the resized content of a
    successful in-place run is made of opaque byte pixels, the image
    written has content box (51, 51, 972, 972), and a second run succeeds
    and writes the same image again, pixel by pixel. *)
Theorem X11_opaque_content_is_a_fixed_point (resample : kernels) (w : World)
    (fmt : format) (img : Image) (bx : box) :
  fs w !! input_file = Some (ImageFile fmt img) ->
  input_file ∉ unreadable w -> output_file ∉ unwritable w -> write_fault w = false ->
  getbbox (to_rgba img) = Some bx ->
  (forall u v, 0 <= u < 921 -> 0 <= v < 921 ->
     let s := im_data (resize resample (crop_region (to_rgba img) bx)
                         (921, 921) LANCZOS) u v in
     byte_pixel s /\ alpha s = 255) ->
  exists w1 w2 out1 out2,
    main resample w = (w1, 0)
    /\ fs w1 !! output_file = Some (ImageFile PNG out1)
    /\ getbbox out1 = Some content_box
    /\ main resample w1 = (w2, 0)
    /\ fs w2 !! output_file = Some (ImageFile PNG out2)
    /\ forall x y, im_data out2 x y = im_data out1 x y.
Proof.
  intros Hf Hr Hw Hfault Hbb Hop.
  set (out1 := padded resample (to_rgba img) bx).
  set (w1 := world_after_success w output_file out1 bx 51).
  assert (Hpix : forall x y,
            im_data out1 x y =
            if in_box content_box x y
            then im_data (resize resample (crop_region (to_rgba img) bx)
                            (921, 921) LANCZOS) (x - 51) (y - 51)
            else Pixel 0 0 0 0).
  { intros x y. unfold out1. rewrite padded_resized_pixel by apply to_rgba_mode.
    destruct (in_box content_box x y) eqn:Hbox; [|reflexivity].
    apply in_box_true in Hbox. unfold content_box in Hbox.
    destruct (Hop (x - 51) (y - 51) ltac:(lia) ltac:(lia)) as (Hb & Ha).
    cbv zeta. apply blend_pixel_opaque; assumption. }
  assert (Hbb1 : getbbox out1 = Some content_box).
  { apply getbbox_rect.
    - unfold within, content_box, out1. rewrite padded_width, padded_height. lia.
    - intros x y _ _. rewrite has_content_rgba by apply padded_mode.
      rewrite Hpix. destruct (in_box content_box x y) eqn:Hbox; [|reflexivity].
      apply in_box_true in Hbox. unfold content_box in Hbox.
      destruct (Hop (x - 51) (y - 51) ltac:(lia) ltac:(lia)) as (_ & Ha).
      cbv zeta in Ha. rewrite Ha. reflexivity. }
  pose proof (main_after_success resample w out1 bx Hr Hw Hfault
                (padded_mode resample _ _)) as H2.
  cbv zeta in H2. rewrite Hbb1 in H2. fold w1 in H2.
  exists w1, (world_after_success w1 output_file (padded resample out1 content_box)
                content_box 51), out1, (padded resample out1 content_box).
  split_and!; try assumption.
  - apply (main_content resample w fmt img bx); assumption.
  - unfold w1, world_after_success. cbn [fs]. apply lookup_insert_eq.
  - unfold world_after_success. cbn [fs]. apply lookup_insert_eq.
  - intros x y. unfold content_box at 1.
    rewrite padded_square_pixel;
      [| apply padded_mode
       | unfold within, out1; rewrite padded_width, padded_height; lia
       | reflexivity | reflexivity ].
    destruct (in_box content_box x y) eqn:Hbox.
    + replace (x - 51 + 51) with x by lia. replace (y - 51 + 51) with y by lia.
      cbv zeta. rewrite Hpix, Hbox.
      apply in_box_true in Hbox. unfold content_box in Hbox.
      destruct (Hop (x - 51) (y - 51) ltac:(lia) ltac:(lia)) as (Hb & Ha).
      apply blend_pixel_opaque; assumption.
    + rewrite Hpix, Hbox. reflexivity.
Qed.

Lemma X11_witness :
  exists w1 w2 out1 out2,
    main nearest_resample (world_with input_file (ImageFile PNG (solid_921 opaque_red)))
    = (w1, 0)
    /\ fs w1 !! output_file = Some (ImageFile PNG out1)
    /\ getbbox out1 = Some content_box
    /\ main nearest_resample w1 = (w2, 0)
    /\ fs w2 !! output_file = Some (ImageFile PNG out2)
    /\ forall x y, im_data out2 x y = im_data out1 x y.
Proof.
  apply (X11_opaque_content_is_a_fixed_point nearest_resample
           (world_with input_file (ImageFile PNG (solid_921 opaque_red)))
           PNG (solid_921 opaque_red) (0, 0, 921, 921)).
  - apply world_with_lookup.
  - apply world_with_readable.
  - apply world_with_writable.
  - reflexivity.
  - apply solid_bbox. vm_compute. discriminate.
  - intros u v Hu Hv.
    change (resize nearest_resample
              (crop_region (to_rgba (solid_921 opaque_red)) (0, 0, 921, 921))
              (921, 921) LANCZOS)
      with (crop_region (solid_921 opaque_red) (0, 0, 921, 921)).
    cbn [crop_region im_data].
    assert (Hib : in_bounds (solid_921 opaque_red) (u + 0) (v + 0) = true).
    { unfold in_bounds. cbn [solid_921 Image_new im_width im_height fst snd].
      rewrite !andb_true_iff, !Z.leb_le, !Z.ltb_lt. lia. }
    rewrite Hib. vm_compute. intuition discriminate.
Defined.

(** X12: running again after a success never raises.  If an in-place run
    exits with code 0, a further run in the same world either exits with
    code 0 as well, from a bounding box that lies within the pasted
    square (51, 51, 972, 972), or finds the written image empty and
    exits with code 1 after the no-content line, leaving the file as it
    is. *)
Theorem X12_rerun_after_success (resample : kernels) (w w1 : World) :
  main resample w = (w1, 0) ->
  exists w2 code,
    main resample w1 = (w2, code)
    /\ ((code = 0
         /\ exists bx2, box_le bx2 content_box
              /\ stdout w2 = stdout w1 ++ [MsgIconFixed output_file; MsgBBox bx2;
                                            MsgNewSize target_size 51])
        \/ (code = 1 /\ fs w2 = fs w1 /\ stdout w2 = stdout w1 ++ [MsgNoContent])).
Proof.
  intros Hmain. unfold main in Hmain.
  pose proof (fix_icon_padding_inv resample input_file output_file w) as H.
  destruct (fix_icon_padding resample input_file output_file w) as [w' r].
  destruct r as [[|]|e]; try discriminate. injection Hmain as <-.
  destruct H as (_ & fmt & img & bx & Hf & Hr & Hbb & Hw & Hfault & ->).
  set (out1 := padded resample (to_rgba img) bx).
  pose proof (main_after_success resample w out1 bx Hr Hw Hfault
                (padded_mode resample _ _)) as H2.
  cbv zeta in H2. destruct (getbbox out1) as [bx2|] eqn:Hbb1.
  - eexists _, 0. split; [exact H2|]. left. split; [reflexivity|].
    exists bx2. split; [|reflexivity].
    destruct (getbbox_minimal_alpha _ _ (padded_mode resample _ _) Hbb1) as (_ & _ & Hmin).
    apply Hmin. intros x y (_ & _ & Ha).
    destruct (in_box content_box x y) eqn:Hbox; [reflexivity|].
    exfalso. apply Ha. unfold out1. rewrite padded_outside by assumption. reflexivity.
  - eexists _, 1. split; [exact H2|]. right. split_and!; reflexivity.
Qed.

Lemma X12_witness :
  exists w2 code,
    main nearest_resample
      (world_after_success (world_with input_file (ImageFile PNG one_pixel)) output_file
         (padded nearest_resample (to_rgba one_pixel) (0, 0, 1, 1)) (0, 0, 1, 1) 51)
    = (w2, code)
    /\ ((code = 0
         /\ exists bx2, box_le bx2 content_box
              /\ stdout w2
                 = stdout (world_after_success
                             (world_with input_file (ImageFile PNG one_pixel)) output_file
                             (padded nearest_resample (to_rgba one_pixel) (0, 0, 1, 1))
                             (0, 0, 1, 1) 51)
                   ++ [MsgIconFixed output_file; MsgBBox bx2; MsgNewSize target_size 51])
        \/ (code = 1
            /\ fs w2 = fs (world_after_success
                             (world_with input_file (ImageFile PNG one_pixel)) output_file
                             (padded nearest_resample (to_rgba one_pixel) (0, 0, 1, 1))
                             (0, 0, 1, 1) 51)
            /\ stdout w2
               = stdout (world_after_success
                           (world_with input_file (ImageFile PNG one_pixel)) output_file
                           (padded nearest_resample (to_rgba one_pixel) (0, 0, 1, 1))
                           (0, 0, 1, 1) 51)
                 ++ [MsgNoContent])).
Proof.
  apply (X12_rerun_after_success nearest_resample
           (world_with input_file (ImageFile PNG one_pixel))).
  apply (main_content nearest_resample _ PNG one_pixel (0, 0, 1, 1)).
  - apply world_with_lookup.
  - apply world_with_readable.
  - vm_compute. reflexivity.
  - apply world_with_writable.
  - reflexivity.
Defined.

(** ** Transparency given by a key *)

(** X13: an image keyed out entirely.  A grey image whose every pixel
    equals its transparency value, or an RGB image whose every pixel
    equals its transparency colour, becomes fully transparent in the
    conversion of lines 17-18, so the run finds no content: it prints the
    no-content line, returns False and writes nothing. *)
Theorem X13_keyed_out_image_has_no_content (resample : kernels) (w : World)
    (inp out : string) (fmt : format) (img : Image) :
  fs w !! inp = Some (ImageFile fmt img) ->
  inp ∉ unreadable w ->
  (im_mode img = Mode_L
   /\ exists v, im_transparency img = Some (TrnsValue v)
        /\ forall x y, 0 <= x < im_width img -> 0 <= y < im_height img ->
             red (im_data img x y) = v)
  \/ (im_mode img = Mode_RGB
      /\ exists r g b, im_transparency img = Some (TrnsColor r g b)
           /\ forall x y, 0 <= x < im_width img -> 0 <= y < im_height img ->
                im_data img x y = Pixel r g b (alpha (im_data img x y))) ->
  fully_transparent (to_rgba img)
  /\ exists w',
       fix_icon_padding resample inp out w = (w', Ret false)
       /\ fs w' = fs w /\ stdout w' = stdout w ++ [MsgNoContent].
Proof.
  intros Hf Hr Hkey.
  assert (Hft : fully_transparent (to_rgba img)).
  { intros x y Hx Hy. rewrite to_rgba_width in Hx. rewrite to_rgba_height in Hy.
    unfold to_rgba, convert_RGBA, convert_pixel.
    destruct Hkey as [(Hm & v & Ht & Hall) | (Hm & r & g & b & Ht & Hall)].
    - rewrite Hm, Ht. cbn. rewrite (Hall x y Hx Hy), Z.eqb_refl. reflexivity.
    - rewrite Hm, Ht. cbn. rewrite (Hall x y Hx Hy). cbn.
      rewrite !Z.eqb_refl. reflexivity. }
  split; [exact Hft|].
  apply (getbbox_none_iff _ (to_rgba_mode img)) in Hft.
  eexists. split.
  - apply (fix_icon_padding_no_content resample w inp out fmt img); assumption.
  - split; reflexivity.
Qed.

Lemma X13_witness :
  fully_transparent (to_rgba keyed_grey)
  /\ exists w',
       fix_icon_padding nearest_resample input_file output_file
         (world_with input_file (ImageFile PNG keyed_grey)) = (w', Ret false)
       /\ fs w' = fs (world_with input_file (ImageFile PNG keyed_grey))
       /\ stdout w' = stdout (world_with input_file (ImageFile PNG keyed_grey))
                      ++ [MsgNoContent].
Proof.
  apply (X13_keyed_out_image_has_no_content nearest_resample
           (world_with input_file (ImageFile PNG keyed_grey))
           input_file output_file PNG keyed_grey).
  - apply world_with_lookup.
  - apply world_with_readable.
  - left. split; [reflexivity|]. exists 7. split; [reflexivity|].
    intros x y _ _. reflexivity.
Defined.

(** ** When the content fills the pasted square *)

(** X14: for a decoded image made of bytes (and a kernel that yields
    bytes), the content box of the image a successful run writes is the
    whole pasted square (51, 51, 972, 972) exactly when each of the four
    edges of the resized content carries a pixel whose alpha is at least
    12; fainter edges are lost in the paste and shrink the content box. *)
Theorem X14_content_fills_square_iff_edges_visible (resample : kernels) (w : World)
    (inp out : string) (fmt : format) (img : Image) (bx : box) :
  fs w !! inp = Some (ImageFile fmt img) ->
  inp ∉ unreadable w ->
  getbbox (to_rgba img) = Some bx ->
  out ∉ unwritable w ->
  write_fault w = false ->
  byte_image (to_rgba img) ->
  kernel_yields_bytes resample ->
  let resized := resize resample (crop_region (to_rgba img) bx) (921, 921) LANCZOS in
  exists w' final,
    fix_icon_padding resample inp out w = (w', Ret true)
    /\ fs w' !! out = Some (ImageFile PNG final)
    /\ (getbbox final = Some content_box
        <-> (exists u, 0 <= u < 921 /\ 12 <= alpha (im_data resized u 0))
            /\ (exists u, 0 <= u < 921 /\ 12 <= alpha (im_data resized u 920))
            /\ (exists v, 0 <= v < 921 /\ 12 <= alpha (im_data resized 0 v))
            /\ (exists v, 0 <= v < 921 /\ 12 <= alpha (im_data resized 920 v))).
Proof.
  intros Hf Hr Hbb Hw Hfault Hbytes Hker resized.
  exists (world_after_success w out (padded resample (to_rgba img) bx) bx 51),
         (padded resample (to_rgba img) bx).
  split; [apply (fix_icon_padding_content resample w inp out fmt img bx); assumption|].
  split; [unfold world_after_success; cbn [fs]; apply lookup_insert_eq|].
  apply padded_bbox_full_iff; [apply to_rgba_mode|].
  intros u v Hu Hv. apply (run_resized_bytes resample Hker (to_rgba img) bx u v); assumption.
Qed.

Lemma X14_witness :
  exists w' final,
    fix_icon_padding nearest_resample input_file output_file
      (world_with input_file (ImageFile PNG (solid_921 half_black))) = (w', Ret true)
    /\ fs w' !! output_file = Some (ImageFile PNG final)
    /\ getbbox final = Some content_box.
Proof.
  destruct (X14_content_fills_square_iff_edges_visible nearest_resample
              (world_with input_file (ImageFile PNG (solid_921 half_black)))
              input_file output_file PNG (solid_921 half_black) (0, 0, 921, 921))
    as (w' & final & Hrun & Hfs & Hiff).
  - apply world_with_lookup.
  - apply world_with_readable.
  - apply solid_bbox. vm_compute. discriminate.
  - apply world_with_writable.
  - reflexivity.
  - intros x y _ _. vm_compute. intuition discriminate.
  - exact nearest_yields_bytes.
  - exists w', final. split_and!; try assumption.
    apply Hiff.
    split_and!; first [exists 0 | exists 920];
      (split; [lia | vm_compute; discriminate]).
Defined.
